(** * rose_draw.py: the frame count, the reveal scheduler and the export

    A shallow embedding of [animate_rose] (src/rose_draw.py), lines 36-70.

    - Python [float] is IEEE 754 binary64.  It is modelled bit for bit by
      [SpecFloat.spec_float] with [prec = 53] and [emax = 1024]; the
      operations are the ones of [SpecFloat] (round to nearest, ties to
      even).
    - Python [int] is [Z]; [//] is [Z.div] (both floor), [min]/[max] on
      ints are [Z.min]/[Z.max].
    - Exceptions are an explicit result type [res].
    - The arrays [x], [y] are lists of any coordinate type; a slice
      [x[:i]] is [py_slice_to].  The callbacks only take their length and
      slice them, so the binary64 values that lines 23-26 put in them
      ([np.linspace], [np.cos], [np.sin]) are not modelled.
    - The figure is a state the callbacks write to; its window
      ([fig.canvas.manager]) may be absent, as it is while [anim.save]
      draws the frames. *)

From Stdlib Require Import ZArith Lia List Bool Ascii String DecimalString.
From Stdlib Require Import Floats.SpecFloat.
Import ListNotations.

Local Open Scope Z_scope.

(** ** Results of Python computations *)

Inductive pyerr : Type :=
| ZeroDivisionError
| OverflowError
| ValueError
| AttributeError.

Inductive res (A : Type) : Type :=
| Ok (a : A)
| Raise (e : pyerr).

Arguments Ok {A} a.
Arguments Raise {A} e.

Definition bind {A B : Type} (r : res A) (k : A -> res B) : res B :=
  match r with
  | Ok a => k a
  | Raise e => Raise e
  end.

Notation "x <- r ;; k" := (bind r (fun x => k))
  (at level 61, r at next level, right associativity).

(** ** Python floats (binary64) *)

Module Binary64.

Definition prec : Z := 53.
Definition emax : Z := 1024.

Definition float : Type := spec_float.

(** The floats that exist: canonical mantissa and bounded exponent. *)
Definition valid (x : float) : bool := valid_binary prec emax x.

(** [float(n)] for an int [n]: the nearest binary64. *)
Definition of_int (n : Z) : float := binary_normalize prec emax n 0 false.

(** IEEE division, no Python check of the divisor. *)
Definition div (x y : float) : float := SFdiv prec emax x y.

Definition ltb (x y : float) : bool := SFltb x y.

Definition is_zero (x : float) : bool :=
  match x with
  | S754_zero _ => true
  | _ => false
  end.

(** A decimal literal [n/d] (such as [0.1 = 1/10]): the binary64 nearest
    to the quotient, which is what the correctly rounded division of the
    two exactly represented integers gives. *)
Definition lit (n d : Z) : float := div (of_int n) (of_int d).

(** Truncation toward zero of a finite float: the magnitude is
    [m * 2^e]. *)
Definition trunc_mag (m : positive) (e : Z) : Z :=
  if 0 <=? e then Z.pos m * 2 ^ e else Z.pos m / 2 ^ (- e).

(** When round to nearest even moves to the upper neighbour. *)
Definition rounds_up (l : location) : bool :=
  match l with
  | loc_Inexact Eq | loc_Inexact Gt => true
  | _ => false
  end.

(** The second normalisation of [binary_round_aux]: it only matters when
    rounding carried into a new binade. *)
Definition round_finish (sx : bool) (m1 e : Z) : float :=
  let '(mrs, e') := shr_fexp prec emax m1 e loc_Exact in
  match shr_m mrs with
  | Z0 => S754_zero sx
  | Zpos m => if e' <=? emax - prec then S754_finite sx m e'
              else S754_infinity sx
  | Zneg _ => S754_nan
  end.

End Binary64.

Import Binary64.

(** [x / y] on Python floats: a zero divisor raises. *)
Definition py_float_truediv (x y : float) : res float :=
  if is_zero y then Raise ZeroDivisionError else Ok (div x y).

(** [a / b] on Python ints: the correctly rounded quotient, whatever the
    size of the operands (CPython's [long_true_divide]).  [SFdiv] rounds the
    exact quotient of its operands, so the ints are passed as they are,
    with exponent 0.  Below [2^53] this is [float(a) / float(b)]
    ([Binary64Facts.py_int_truediv_small]). *)
Definition int_as_float (n : Z) : float :=
  match n with
  | Z0 => S754_zero false
  | Zpos p => S754_finite false p 0
  | Zneg p => S754_finite true p 0
  end.

Definition py_int_truediv (a b : Z) : res float :=
  if b =? 0 then Raise ZeroDivisionError
  else Ok (div (int_as_float a) (int_as_float b)).

(** [int(x)] on a float: truncation toward zero; infinities and NaN
    raise. *)
Definition py_int (x : float) : res Z :=
  match x with
  | S754_zero _ => Ok 0
  | S754_infinity _ => Raise OverflowError
  | S754_nan => Raise ValueError
  | S754_finite s m e =>
      Ok (if s then - trunc_mag m e else trunc_mag m e)
  end.

(** [max(a, b)] on floats, as the builtin computes it: the first argument
    is kept unless the second compares greater. *)
Definition py_max_float (a b : float) : float :=
  if ltb a b then b else a.

(** ** The frame count (lines 43-45) *)

Definition base_frames : Z := 240.

Definition f0_1 : float := Eval vm_compute in lit 1 10.

Definition frames_of (speed : float) : res Z :=
  q <- py_float_truediv (of_int base_frames) (py_max_float f0_1 speed) ;;
  n <- py_int q ;;
  Ok (Z.max 60 n).

Definition idx_per_frame_of (len_x frames : Z) : Z :=
  Z.max 1 (len_x / frames).

(** ** Strings, lengths, slices and ranges *)

(** [str(n)] for an int. *)
Definition str_of_int (n : Z) : string := NilZero.string_of_int (Z.to_int n).

Definition len {A : Type} (l : list A) : Z := Z.of_nat (List.length l).

(** [l[:i]]: a negative bound counts from the end. *)
Definition py_slice_to {A : Type} (l : list A) (i : Z) : list A :=
  if i <? 0 then firstn (Z.to_nat (len l + i)) l
  else firstn (Z.to_nat i) l.

(** [range(n)]. *)
Definition py_range (n : Z) : list Z := map Z.of_nat (seq 0 (Z.to_nat n)).

Local Open Scope string_scope.

(** ** The figure and the two callbacks (lines 36-37 and 47-58) *)

Section Scheduler.

(** The type of a coordinate: the callbacks only slice the arrays. *)
Context {A : Type}.

(** What the callbacks write: the data of [line], the text of
    [pct_text] and the title of the window.  [manager] is
    [fig.canvas.manager]: [Some title] for a figure that has its window,
    [None] for a figure without one, which is how [anim.save] presents the
    figure to the callbacks while it draws the frames. *)
Record display : Type := mkDisplay {
  line_x : list A;
  line_y : list A;
  pct_text : string;
  manager : option string
}.

(** A callback mutates the figure and may raise: what was written before
    the exception stays written. *)
Definition act (T : Type) : Type := display -> res T * display.

Definition ret {T : Type} (t : T) : act T := fun d => (Ok t, d).

Definition lift {T : Type} (r : res T) : act T := fun d => (r, d).

Definition abind {T U : Type} (a : act T) (k : T -> act U) : act U :=
  fun d =>
    match a d with
    | (Ok t, d') => k t d'
    | (Raise e, d') => (Raise e, d')
    end.

Definition set_data (xs ys : list A) : act unit :=
  fun d => (Ok tt, mkDisplay xs ys (pct_text d) (manager d)).

Definition set_text (s : string) : act unit :=
  fun d => (Ok tt, mkDisplay (line_x d) (line_y d) s (manager d)).

(** [fig.canvas.manager.set_window_title(s)]: the attribute lookup on
    [None] raises, and nothing is written. *)
Definition set_window_title (s : string) : act unit :=
  fun d =>
    match manager d with
    | Some _ => (Ok tt, mkDisplay (line_x d) (line_y d) (pct_text d) (Some s))
    | None => (Raise AttributeError, d)
    end.

(** Lines 36-37: the empty line and the label as they are created, in a
    figure that has its window. *)
Definition initial_display (title : string) : display :=
  mkDisplay [] [] "0%" (Some title).

(** The same figure with its window taken away. *)
Definition without_manager (d : display) : display :=
  mkDisplay (line_x d) (line_y d) (pct_text d) None.

(** The values the closures capture (lines 25-26 and 43-45). *)
Record session : Type := mkSession {
  xs : list A;
  ys : list A;
  frames : Z;
  idx_per_frame : Z
}.

Definition prepare (x y : list A) (speed : float) : res session :=
  fr <- frames_of speed ;;
  Ok (mkSession x y fr (idx_per_frame_of (len x) fr)).

(** Line 53: the number of points shown at a frame. *)
Definition revealed_count (s : session) (frame : Z) : Z :=
  Z.min (len (xs s)) ((frame + 1) * idx_per_frame s)%Z.

(** Line 55: [int(100 * i / len(x))]. *)
Definition percent (s : session) (i : Z) : res Z :=
  q <- py_int_truediv (100 * i)%Z (len (xs s)) ;;
  py_int q.

Definition init : act unit :=
  abind (set_data [] []) (fun _ => set_text "0%").

Definition update (s : session) (frame : Z) : act unit :=
  let i := revealed_count s frame in
  abind (set_data (py_slice_to (xs s) i) (py_slice_to (ys s) i)) (fun _ =>
  abind (lift (percent s i)) (fun pct =>
  abind (set_text (str_of_int pct ++ "%")) (fun _ =>
  set_window_title ("Rose Drawing — " ++ str_of_int pct ++ "%")))).

(** The driver ([FuncAnimation], [repeat=False]): [init], then [update]
    on each frame of [range(frames)], in order. *)
Fixpoint run_frames (s : session) (fs : list Z) : act unit :=
  match fs with
  | [] => ret tt
  | f :: fs' => abind (update s f) (fun _ => run_frames s fs')
  end.

Definition play (s : session) : act unit :=
  abind init (fun _ => run_frames s (py_range (frames s))).

End Scheduler.

Arguments display : clear implicits.
Arguments session : clear implicits.

(** ** The export and the display (lines 62-70) *)

(** What [anim.save] may raise: [Exception] and its subclasses (the
    errors), or a [BaseException] outside [Exception], such as
    [KeyboardInterrupt]. *)
Record py_exception : Type := mkExc {
  is_Exception : bool;
  exc_str : string
}.

Inductive outcome : Type :=
| Returned
| Raised (e : py_exception).

Inductive event : Type :=
| SaveCalled (path writer : string) (fps : Z)
| Printed (line : string)
| ShowCalled.

(** [if save:] holds for a path that is neither [None] nor empty. *)
Definition truthy (save : option string) : bool :=
  match save with
  | None => false
  | Some "" => false
  | Some _ => true
  end.

(** The tail of [animate_rose]: the events in order, and the exception
    that leaves the function, if any.  [anim_save] is the encoder. *)
Definition export_and_show (anim_save : string -> outcome)
    (save : option string) : list event * option py_exception :=
  match save with
  | Some path =>
      if truthy save then
        match anim_save path with
        | Returned =>
            ([SaveCalled path "pillow" 30;
              Printed ("Saved animation to " ++ path);
              ShowCalled], None)
        | Raised e =>
            if is_Exception e then
              ([SaveCalled path "pillow" 30;
                Printed ("Could not save GIF: " ++ exc_str e);
                ShowCalled], None)
            else ([SaveCalled path "pillow" 30], Some e)
        end
      else ([ShowCalled], None)
  | None => ([ShowCalled], None)
  end.

Definition is_save (ev : event) : bool :=
  match ev with
  | SaveCalled _ _ _ => true
  | _ => false
  end.

(** [needle] occurs in [hay]. *)
Definition occurs_in (needle hay : string) : Prop :=
  exists before after, hay = before ++ needle ++ after.

Local Close Scope string_scope.

(** ** The frame count as the specification words it *)

(** [round(q)] in Python: the nearest int, ties to the even one. *)
Definition round_mag (m : positive) (e : Z) : Z :=
  if 0 <=? e then Z.pos m * 2 ^ e
  else
    let d := 2 ^ (- e) in
    let q := Z.pos m / d in
    let r := Z.pos m mod d in
    match 2 * r ?= d with
    | Lt => q
    | Gt => q + 1
    | Eq => if Z.even q then q else q + 1
    end.

Definition py_round (x : float) : res Z :=
  match x with
  | S754_zero _ => Ok 0
  | S754_infinity _ => Raise OverflowError
  | S754_nan => Raise ValueError
  | S754_finite s m e => Ok (if s then - round_mag m e else round_mag m e)
  end.

(** max(60, round(240 / max(0.1, speed))) *)
Definition spec_frame_count_round (speed : float) : res Z :=
  q <- py_float_truediv (of_int 240) (py_max_float f0_1 speed) ;;
  n <- py_round q ;;
  Ok (Z.max 60 n).

(** The same with truncation toward zero, as a total function:
    max(60, trunc(240 / max(0.1, speed))). *)
Definition trunc_toward_zero (x : float) : Z :=
  match x with
  | S754_finite false m e => trunc_mag m e
  | S754_finite true m e => - trunc_mag m e
  | _ => 0
  end.

Definition spec_frame_count_trunc (speed : float) : Z :=
  Z.max 60 (trunc_toward_zero (div (of_int 240) (py_max_float f0_1 speed))).

(** ** The label as a reader parses it *)

(** The value of a decimal digit. *)
Definition digit_value (c : ascii) : option Z :=
  let n := Z.of_N (N_of_ascii c) in
  if (48 <=? n) && (n <=? 57) then Some (n - 48) else None.

Fixpoint decimal_value_from (acc : Z) (t : string) : option Z :=
  match t with
  | EmptyString => Some acc
  | String c t' =>
      match digit_value c with
      | Some v => decimal_value_from (10 * acc + v) t'
      | None => None
      end
  end.

(** The number a string of decimal digits denotes; nothing for the empty
    string and for a string with any other character. *)
Definition decimal_value (t : string) : option Z :=
  match t with
  | EmptyString => None
  | _ => decimal_value_from 0 t
  end.

(** No superfluous zero in front. *)
Definition no_leading_zero (t : string) : bool :=
  match t with
  | String c (String _ _) => negb (Ascii.eqb c "0"%char)
  | _ => true
  end.

(** [t] is [n] written in decimal, the way [str] and an f-string write a
    natural number. *)
Definition decimal_of (n : Z) (t : string) : bool :=
  match decimal_value t with
  | Some v => (v =? n) && no_leading_zero t
  | None => false
  end.

(** ** The frame count in exact arithmetic *)

Definition leb (x y : float) : bool := SFleb x y.

(** The floor of [n / x] for a positive finite float [x] of value
    [m * 2^e], computed on integers; [n / infinity] is 0. *)
Definition exact_floor_div (n : Z) (x : float) : Z :=
  match x with
  | S754_finite false m e =>
      if 0 <=? e then n / (Z.pos m * 2 ^ e) else n * 2 ^ (- e) / Z.pos m
  | _ => 0
  end.

(** ** Sample inputs *)

Module Samples.

Local Open Scope string_scope.

Definition speed_default : float := lit 1 1.
Definition speed_slow : float := lit 1 100.
Definition speed_fast : float := lit 35 10.

(** 3000 stand-in coordinates, as many as the default [--points]. *)
Definition coords_default : list Z := py_range 3000.
Definition coords_small : list Z := [10; 20; 30; 40; 50].

Definition figure : display Z := initial_display "Figure 1".

(** The figure as [anim.save] hands it to the callbacks. *)
Definition figure_saving : display Z := without_manager figure.

Definition permission_denied : py_exception :=
  mkExc true "[Errno 13] Permission denied: '/out.gif'".

Definition failing_encoder (path : string) : outcome :=
  Raised permission_denied.

End Samples.

(** * Binary64 arithmetic: the lemmas the scheduler needs *)

Module Binary64Facts.

Lemma digits_lower (p : positive) :
  2 ^ (Z.pos (digits2_pos p) - 1) <= Z.pos p.
Proof.
  induction p as [p IH | p IH | ]; cbn [digits2_pos].
  - rewrite Pos2Z.inj_succ.
    replace (Z.succ (Z.pos (digits2_pos p)) - 1)
      with (Z.succ (Z.pos (digits2_pos p) - 1)) by lia.
    rewrite Z.pow_succ_r by lia. lia.
  - rewrite Pos2Z.inj_succ.
    replace (Z.succ (Z.pos (digits2_pos p)) - 1)
      with (Z.succ (Z.pos (digits2_pos p) - 1)) by lia.
    rewrite Z.pow_succ_r by lia. lia.
  - reflexivity.
Qed.

Lemma digits_upper (p : positive) :
  Z.pos p < 2 ^ Z.pos (digits2_pos p).
Proof.
  induction p as [p IH | p IH | ]; cbn [digits2_pos].
  - rewrite Pos2Z.inj_succ, Z.pow_succ_r by lia. lia.
  - rewrite Pos2Z.inj_succ, Z.pow_succ_r by lia. lia.
  - reflexivity.
Qed.

(** The number of digits is determined by the binade. *)
Lemma digits_unique (p : positive) (k : Z) :
  2 ^ (k - 1) <= Z.pos p < 2 ^ k -> Z.pos (digits2_pos p) = k.
Proof.
  intros [Hlo Hhi].
  pose proof (digits_lower p) as Dlo.
  pose proof (digits_upper p) as Dhi.
  set (d := Z.pos (digits2_pos p)) in *.
  assert (Hd : 0 < d) by (subst d; lia).
  assert (Hk : 0 < k).
  { destruct (Z_lt_le_dec 0 k) as [ |Hk]; [assumption|].
    destruct (Z.eq_dec k 0) as [-> | Hk0]; [cbn in Hhi; lia | ].
    rewrite Z.pow_neg_r in Hhi by lia. lia. }
  destruct (Z.lt_trichotomy d k) as [Hlt | [Heq | Hgt]]; [ | assumption | ].
  - assert (2 ^ d <= 2 ^ (k - 1)) by (apply Z.pow_le_mono_r; lia). lia.
  - assert (2 ^ k <= 2 ^ (d - 1)) by (apply Z.pow_le_mono_r; lia). lia.
Qed.

Lemma Zdigits2_pos_range (q k : Z) :
  2 ^ (k - 1) <= q < 2 ^ k -> 0 < k -> Zdigits2 q = k.
Proof.
  intros H Hk. destruct q as [ | p | p].
  - assert (0 < 2 ^ (k - 1)) by (apply Z.pow_pos_nonneg; lia). lia.
  - cbn [Zdigits2]. now apply digits_unique.
  - assert (0 < 2 ^ (k - 1)) by (apply Z.pow_pos_nonneg; lia). lia.
Qed.

Lemma fexp_normal (x : Z) :
  -1074 <= x - 53 -> fexp prec emax x = x - 53.
Proof. unfold fexp, SpecFloat.emin, prec, emax. lia. Qed.

Lemma loc_of_record_of_loc (m : Z) (l : location) :
  loc_of_shr_record (shr_record_of_loc m l) = l.
Proof. destruct l as [ | [ | | ]]; reflexivity. Qed.

Lemma shr_m_record_of_loc (m : Z) (l : location) :
  shr_m (shr_record_of_loc m l) = m.
Proof. destruct l as [ | [ | | ]]; reflexivity. Qed.

Lemma round_nearest_even_range (m : Z) (l : location) :
  m <= round_nearest_even m l <= m + 1.
Proof.
  destruct l as [ | [ | | ]]; cbn; try lia.
  destruct (Z.even m); lia.
Qed.

Lemma round_nearest_even_up (m : Z) (l : location) :
  round_nearest_even m l = m + 1 -> rounds_up l = true.
Proof. destruct l as [ | [ | | ]]; cbn; intros; try reflexivity; lia. Qed.

Lemma new_location_up (n r : Z) :
  rounds_up (new_location n r) = true -> n <= 2 * r.
Proof.
  unfold new_location, new_location_even, new_location_odd.
  destruct (Z.even n) eqn:En; destruct (r =? 0) eqn:Er;
    cbv [rounds_up]; try discriminate.
  - destruct (Z.compare_spec (2 * r) n); intros; try discriminate; lia.
  - destruct (Z.compare_spec (2 * r + 1) n); intros; try discriminate; lia.
Qed.

(** One step of the right shift on a mantissa of two digits or more. *)
Lemma shr_1_spec (q : Z) (l : location) :
  2 <= q ->
  shr_m (shr_1 (shr_record_of_loc q l)) = q / 2 /\
  (rounds_up (loc_of_shr_record (shr_1 (shr_record_of_loc q l))) = true ->
   Z.odd q = true).
Proof.
  intros Hq. destruct q as [ | p | p]; try lia.
  destruct p as [p | p | ]; try lia.
  - split.
    + destruct l as [ | [ | | ]]; cbn [shr_record_of_loc shr_1 shr_m];
        rewrite Pos2Z.inj_xI; apply (Z.div_unique _ 2 _ 1); lia.
    + reflexivity.
  - split.
    + destruct l as [ | [ | | ]]; cbn [shr_record_of_loc shr_1 shr_m];
        rewrite Pos2Z.inj_xO; apply (Z.div_unique _ 2 _ 0); lia.
    + destruct l as [ | [ | | ]]; cbn; intros; discriminate.
Qed.

Lemma binary_round_aux_eq (sx : bool) (mx ex : Z) (lx : location) :
  binary_round_aux prec emax sx mx ex lx =
  let '(mrs, e) := shr_fexp prec emax mx ex lx in
  round_finish sx (round_nearest_even (shr_m mrs) (loc_of_shr_record mrs)) e.
Proof. reflexivity. Qed.

Lemma shr_fexp_keep (q e : Z) (l : location) :
  2 ^ 52 <= q < 2 ^ 53 -> -1074 <= e ->
  shr_fexp prec emax q e l = (shr_record_of_loc q l, e).
Proof.
  intros Hq He. unfold shr_fexp.
  rewrite (Zdigits2_pos_range q 53) by (cbn; lia).
  rewrite fexp_normal by lia.
  replace (53 + e - 53 - e) with 0 by lia. reflexivity.
Qed.

Lemma shr_fexp_one (q e : Z) (l : location) :
  2 ^ 53 <= q < 2 ^ 54 -> -1075 <= e ->
  shr_fexp prec emax q e l = (shr_1 (shr_record_of_loc q l), e + 1).
Proof.
  intros Hq He. unfold shr_fexp.
  rewrite (Zdigits2_pos_range q 54) by (cbn; lia).
  rewrite fexp_normal by lia.
  replace (54 + e - 53 - e) with 1 by lia. reflexivity.
Qed.

Lemma round_finish_spec (sx : bool) (m1 e : Z) :
  2 ^ 52 <= m1 <= 2 ^ 53 -> -1074 <= e -> e + 1 <= 971 ->
  exists m e',
    round_finish sx m1 e = S754_finite sx m e' /\
    e <= e' <= e + 1 /\
    Z.pos m * 2 ^ (e' - e) = m1.
Proof.
  intros Hm He Hmax. unfold round_finish.
  destruct (Z.eq_dec m1 (2 ^ 53)) as [-> | Hne].
  - rewrite shr_fexp_one by (cbn; lia).
    exists (4503599627370496%positive), (e + 1).
    replace (e + 1 - e) with 1 by lia.
    cbn [shr_record_of_loc shr_1 shr_m Z.pow Z.pow_pos Pos.iter Z.mul Pos.mul].
    unfold emax, prec.
    destruct (Z.leb_spec (e + 1) (1024 - 53)); [ | lia].
    repeat split; lia.
  - rewrite shr_fexp_keep by lia.
    rewrite shr_m_record_of_loc.
    destruct m1 as [ | p | p]; try (cbn in Hm; lia).
    exists p, e. unfold emax, prec.
    destruct (Z.leb_spec e (1024 - 53)); [ | lia].
    rewrite Z.sub_diag, Z.mul_1_r. repeat split; lia.
Qed.

(** Rounding a quotient of 53 or 54 digits: the result is finite, it is
    one of the two neighbours of the quotient on the 53-digit grid, and
    the upper one is chosen only from the middle upward. *)
Lemma binary_round_aux_spec (sx : bool) (q e : Z) (l : location) :
  2 ^ 52 <= q < 2 ^ 54 -> -1074 <= e -> e + 2 <= 971 ->
  exists m e' t,
    binary_round_aux prec emax sx q e l = S754_finite sx m e' /\
    (t = 0 /\ q < 2 ^ 53 \/ t = 1 /\ 2 ^ 53 <= q) /\
    e + t <= e' <= e + t + 1 /\
    q / 2 ^ t <= Z.pos m * 2 ^ (e' - (e + t)) <= q / 2 ^ t + 1 /\
    (Z.pos m * 2 ^ (e' - (e + t)) = q / 2 ^ t + 1 ->
     if t =? 0 then rounds_up l = true else Z.odd q = true).
Proof.
  intros Hq He Hmax. rewrite binary_round_aux_eq.
  destruct (Z_lt_le_dec q (2 ^ 53)) as [Hlt | Hge].
  - rewrite shr_fexp_keep by lia.
    rewrite shr_m_record_of_loc, loc_of_record_of_loc.
    pose proof (round_nearest_even_range q l) as Hr.
    destruct (round_finish_spec sx (round_nearest_even q l) e)
      as (m & e' & Heq & He' & Hv); try lia.
    exists m, e', 0.
    rewrite Z.add_0_r, Z.pow_0_r, Z.div_1_r, Hv.
    split; [exact Heq | ]. split; [left; lia | ].
    split; [lia | ]. split; [lia | ].
    cbn [Z.eqb]. apply round_nearest_even_up.
  - rewrite shr_fexp_one by lia.
    destruct (shr_1_spec q l) as [Hm Hup]; [cbn in Hge; lia | ].
    rewrite Hm.
    set (l' := loc_of_shr_record (shr_1 (shr_record_of_loc q l))) in *.
    pose proof (round_nearest_even_range (q / 2) l') as Hr.
    assert (Hh : 2 ^ 52 <= q / 2 < 2 ^ 53).
    { change (2 ^ 53) with (2 * 2 ^ 52) in Hge.
      change (2 ^ 54) with (2 * 2 ^ 53) in Hq.
      split; [apply Z.div_le_lower_bound | apply Z.div_lt_upper_bound]; lia. }
    destruct (round_finish_spec sx (round_nearest_even (q / 2) l') (e + 1))
      as (m & e' & Heq & He' & Hv); try lia.
    exists m, e', 1.
    rewrite Z.pow_1_r, Hv.
    split; [exact Heq | ]. split; [right; lia | ].
    split; [lia | ]. split; [lia | ].
    cbn [Z.eqb]. intros Hup'. apply Hup.
    now apply round_nearest_even_up with (m := q / 2).
Qed.

Lemma div_eucl_div_mod (a b : Z) :
  Z.div_eucl a b = (a / b, a mod b).
Proof. unfold Z.div, Z.modulo. now destruct (Z.div_eucl a b). Qed.

(** Division of two positive finite operands whose quotient is in the
    normal range.  With [s] the scaling of the dividend, the mantissa of
    the result, read at exponent [E], is [N / D] or [N / D + 1], and the
    second only when the remainder is at least half of [D]. *)
Lemma div_pos_spec (m1 m2 : positive) (e1 e2 : Z) :
  let d1 := Z.pos (digits2_pos m1) in
  let d2 := Z.pos (digits2_pos m2) in
  let s := 53 + d2 - d1 in
  let delta := d1 + e1 - (d2 + e2) in
  0 <= s -> -1021 <= delta <= 1022 ->
  exists m e t,
    div (S754_finite false m1 e1) (S754_finite false m2 e2)
    = S754_finite false m e /\
    (t = 0 \/ t = 1) /\
    let E := delta - 53 + t in
    let N := Z.pos m1 * 2 ^ s in
    let D := Z.pos m2 * 2 ^ t in
    E <= e <= E + 1 /\
    N / D <= Z.pos m * 2 ^ (e - E) <= N / D + 1 /\
    (Z.pos m * 2 ^ (e - E) = N / D + 1 -> D <= 2 * (N mod D)).
Proof.
  intros d1 d2 s delta Hs Hdelta.
  pose proof (digits_lower m1) as L1. pose proof (digits_upper m1) as U1.
  pose proof (digits_lower m2) as L2. pose proof (digits_upper m2) as U2.
  fold d1 in L1, U1. fold d2 in L2, U2.
  assert (Hd1 : 0 < d1) by (subst d1; lia).
  assert (Hd2 : 0 < d2) by (subst d2; lia).
  unfold div, SFdiv, SFdiv_core_binary. cbn [Zdigits2 xorb].
  fold d1 d2.
  assert (He' : Z.min (fexp prec emax (d1 + e1 - (d2 + e2))) (e1 - e2)
                = delta - 53).
  { fold delta. rewrite fexp_normal by lia. subst delta s. lia. }
  rewrite He'.
  replace (e1 - e2 - (delta - 53)) with s by (subst delta s; lia).
  set (N := Z.pos m1 * 2 ^ s).
  assert (HN : match s with
               | 0 => Z.pos m1
               | Z.pos _ => Z.shiftl (Z.pos m1) s
               | Z.neg _ => 0
               end = N).
  { subst N. destruct s as [ | p | p] eqn:Es.
    - rewrite Z.pow_0_r. lia.
    - now rewrite Z.shiftl_mul_pow2 by lia.
    - lia. }
  rewrite HN, div_eucl_div_mod.
  (* the quotient has 53 or 54 digits *)
  assert (HNlo : 2 ^ 52 * 2 ^ d2 <= N).
  { subst N. replace (2 ^ 52 * 2 ^ d2) with (2 ^ (d1 - 1) * 2 ^ s).
    - apply Z.mul_le_mono_nonneg_r; [apply Z.pow_nonneg; lia | assumption].
    - rewrite <- !Z.pow_add_r by lia. f_equal. subst s. lia. }
  assert (HNhi : N < 2 ^ 54 * 2 ^ (d2 - 1)).
  { subst N. replace (2 ^ 54 * 2 ^ (d2 - 1)) with (2 ^ d1 * 2 ^ s).
    - apply Z.mul_lt_mono_pos_r; [apply Z.pow_pos_nonneg; lia | assumption].
    - rewrite <- !Z.pow_add_r by lia. f_equal. subst s. lia. }
  assert (Hq : 2 ^ 52 <= N / Z.pos m2 < 2 ^ 54).
  { split.
    - apply Z.div_le_lower_bound; [lia | ].
      assert (0 < 2 ^ 52) by reflexivity. nia.
    - apply Z.div_lt_upper_bound; [lia | ].
      assert (0 < 2 ^ 54) by reflexivity. nia. }
  destruct (binary_round_aux_spec false (N / Z.pos m2) (delta - 53)
              (new_location (Z.pos m2) (N mod Z.pos m2)))
    as (m & e & t & Heq & Ht & He & Hm & Hup); try lia.
  exists m, e, t. split; [exact Heq | ].
  split; [lia | ].
  cbv zeta.
  assert (Hdiv : N / Z.pos m2 / 2 ^ t = N / (Z.pos m2 * 2 ^ t)).
  { rewrite Z.div_div; [reflexivity | lia | ].
    destruct Ht as [[-> _] | [-> _]]; reflexivity. }
  rewrite <- Hdiv.
  split; [exact He | ]. split; [exact Hm | ].
  intros Hv. specialize (Hup Hv).
  destruct Ht as [[-> _] | [-> _]]; cbn [Z.eqb] in Hup.
  - rewrite Z.pow_0_r, Z.mul_1_r. now apply new_location_up.
  - rewrite Z.pow_1_r.
    rewrite (Z.rem_mul_r N (Z.pos m2) 2) by lia.
    apply Z.odd_spec in Hup as [k Hk]. rewrite Hk.
    replace (2 * k + 1) with (1 + k * 2) by lia.
    rewrite Z.mod_add by lia. change (1 mod 2) with 1.
    pose proof (Z.mod_pos_bound N (Z.pos m2)). lia.
Qed.

Lemma digits_le_of_lt (p : positive) (k : Z) :
  Z.pos p < 2 ^ k -> Z.pos (digits2_pos p) <= k.
Proof.
  intros H. pose proof (digits_lower p) as L.
  destruct (Z_le_gt_dec (Z.pos (digits2_pos p)) k) as [ | Hgt]; [assumption | ].
  assert (0 <= k).
  { destruct (Z_lt_le_dec k 0); [rewrite Z.pow_neg_r in H by lia; lia | lia]. }
  assert (2 ^ k <= 2 ^ (Z.pos (digits2_pos p) - 1))
    by (apply Z.pow_le_mono_r; lia).
  lia.
Qed.

(** Truncation may read the mantissa at any lower exponent. *)
Lemma trunc_mag_rescale (m : positive) (e E : Z) :
  E <= e < 0 ->
  trunc_mag m e = Z.pos m * 2 ^ (e - E) / 2 ^ (- E).
Proof.
  intros H. unfold trunc_mag. destruct (Z.leb_spec 0 e); [lia | ].
  replace (- E) with ((- e) + (e - E)) by lia.
  rewrite Z.pow_add_r by lia.
  rewrite Z.div_mul_cancel_r; [reflexivity | | ]; apply Z.pow_nonzero; lia.
Qed.

(** Truncating the correctly rounded quotient of two ints gives their
    floor quotient, as long as the quotient is below 128 and the divisor
    below [2^46]: rounding cannot reach the next integer. *)
Lemma trunc_div_floor (a b : positive) :
  Z.pos a <= 100 * Z.pos b -> Z.pos b < 2 ^ 46 ->
  exists m e,
    div (S754_finite false a 0) (S754_finite false b 0)
    = S754_finite false m e /\
    trunc_mag m e = Z.pos a / Z.pos b.
Proof.
  intros Hab Hb.
  pose proof (digits_lower a) as La. pose proof (digits_upper a) as Ua.
  pose proof (digits_lower b) as Lb. pose proof (digits_upper b) as Ub.
  pose proof (digits_le_of_lt b 46 Hb) as Hd2.
  set (d1 := Z.pos (digits2_pos a)) in *.
  set (d2 := Z.pos (digits2_pos b)) in *.
  assert (Hd1 : 0 < d1) by (subst d1; lia).
  assert (Hd2' : 0 < d2) by (subst d2; lia).
  assert (Hd12 : d1 <= d2 + 7).
  { apply (digits_le_of_lt a (d2 + 7)).
    rewrite Z.pow_add_r by lia. change (2 ^ 7) with 128. lia. }
  destruct (div_pos_spec a b 0 0) as (m & e & t & Heq & Ht & HE & HM & Hup);
    fold d1 d2; try lia.
  fold d1 d2 in HE, HM, Hup. cbv zeta in HE, HM, Hup.
  exists m, e. split; [exact Heq | ].
  set (s := 53 + d2 - d1) in *.
  set (E := d1 + 0 - (d2 + 0) - 53 + t) in *.
  set (N := Z.pos a * 2 ^ s) in *.
  set (D := Z.pos b * 2 ^ t) in *.
  set (M := Z.pos m * 2 ^ (e - E)) in *.
  assert (Hs : 46 <= s) by (subst s; lia).
  assert (HEt : - E = s - t) by (subst E s; lia).
  assert (Hpt : 1 <= 2 ^ t <= 2) by (destruct Ht as [-> | ->]; cbn; lia).
  assert (HD : 0 < D) by (subst D; lia).
  assert (HP : 0 < 2 ^ (s - t)) by (apply Z.pow_pos_nonneg; lia).
  assert (HS : 0 < 2 ^ s) by (apply Z.pow_pos_nonneg; lia).
  assert (HDP : D * 2 ^ (s - t) = Z.pos b * 2 ^ s).
  { subst D. rewrite <- Z.mul_assoc, <- Z.pow_add_r by lia.
    do 2 f_equal. lia. }
  (* truncation reads the mantissa at exponent E *)
  assert (Htr : trunc_mag m e = M / 2 ^ (s - t)).
  { rewrite (trunc_mag_rescale m e E) by lia. now rewrite HEt. }
  assert (Hfl : N / D / 2 ^ (s - t) = Z.pos a / Z.pos b).
  { rewrite Z.div_div by lia. rewrite HDP. subst N.
    apply Z.div_mul_cancel_r; lia. }
  rewrite Htr, <- Hfl.
  destruct (Z.eq_dec M (N / D)) as [-> | Hne]; [reflexivity | ].
  assert (HMup : M = N / D + 1) by lia.
  specialize (Hup HMup). rewrite HMup.
  (* N / D + 1 is not a multiple of 2^(s-t) *)
  set (P := 2 ^ (s - t)) in *.
  pose proof (Z.div_mod (N / D) P ltac:(lia)) as HQ.
  pose proof (Z.mod_pos_bound (N / D) P HP) as HQr.
  pose proof (Z.div_mod N D ltac:(lia)) as HNd.
  pose proof (Z.mod_pos_bound N D HD) as HNr.
  destruct (Z.eq_dec ((N / D) mod P) (P - 1)) as [Hlast | Hnot].
  - exfalso.
    set (k := N / D / P) in *. set (rho := N mod D) in *.
    assert (HQ1 : N / D = P * (k + 1) - 1) by lia.
    assert (HN1 : N = Z.pos b * 2 ^ s * (k + 1) - D + rho).
    { rewrite <- HDP. rewrite HNd at 1. rewrite HQ1. ring. }
    assert (Hmul : 2 ^ s * (Z.pos b * (k + 1) - Z.pos a) = D - rho).
    { subst N. lia. }
    assert (Hpos : 1 <= Z.pos b * (k + 1) - Z.pos a)
      by (clear - Hmul HNr HS; nia).
    assert (Hbig : 2 * 2 ^ s <= D) by (clear - Hmul Hpos Hup HS; nia).
    assert (H47 : 2 ^ 47 <= 2 * 2 ^ s).
    { change (2 ^ 47) with (2 * 2 ^ 46).
      assert (2 ^ 46 <= 2 ^ s) by (apply Z.pow_le_mono_r; lia). lia. }
    change (2 ^ 46) with 70368744177664 in Hb.
    change (2 ^ 47) with 140737488355328 in H47.
    subst D. clear - Hbig H47 Hb Hpt. nia.
  - symmetry. apply (Z.div_unique _ P _ ((N / D) mod P + 1)); lia.
Qed.

(** A float above [0.1] is positive and normal. *)
Lemma gt_tenth_normal (s : bool) (m2 : positive) (e2 : Z) :
  valid (S754_finite s m2 e2) = true ->
  ltb f0_1 (S754_finite s m2 e2) = true ->
  s = false /\ Z.pos (digits2_pos m2) = 53 /\ -56 <= e2 <= 971 /\
  2 ^ 56 < 10 * (Z.pos m2 * 2 ^ (e2 + 56)).
Proof.
  intros Hv Hlt.
  unfold ltb, SFltb, f0_1, SFcompare in Hlt.
  destruct s; [discriminate | ].
  unfold valid, valid_binary, bounded, canonical_mantissa in Hv.
  apply andb_true_iff in Hv as [Hc Hb].
  apply Z.eqb_eq in Hc. apply Z.leb_le in Hb.
  unfold fexp, SpecFloat.emin, prec, emax in Hc, Hb.
  pose proof (digits_lower m2) as L2.
  assert (He2 : -56 <= e2).
  { destruct (Z.compare_spec (-56) e2); [lia | lia | discriminate]. }
  assert (Hd : Z.pos (digits2_pos m2) = 53) by lia.
  rewrite Hd in L2. change (2 ^ (53 - 1)) with 4503599627370496 in L2.
  change (2 ^ 56) with 72057594037927936.
  repeat split; try lia.
  destruct (Z.compare_spec (-56) e2) as [He | He | He]; try lia.
  - subst e2. change (2 ^ (-56 + 56)) with 1.
    change (Pos.compare_cont Eq 7205759403792794 m2)
      with (Pos.compare 7205759403792794 m2) in Hlt.
    destruct (Pos.compare_spec 7205759403792794 m2); try discriminate. lia.
  - assert (2 ^ 1 <= 2 ^ (e2 + 56)) by (apply Z.pow_le_mono_r; lia).
    change (2 ^ 1) with 2 in *. nia.
Qed.

(** [240.0 / d] for a float [d] above [0.1]: finite, and its integer part
    is at most 2400. *)
Lemma div_240_spec (m2 : positive) (e2 : Z) :
  valid (S754_finite false m2 e2) = true ->
  ltb f0_1 (S754_finite false m2 e2) = true ->
  exists m e,
    div (of_int base_frames) (S754_finite false m2 e2)
    = S754_finite false m e /\
    0 <= trunc_mag m e <= 2400.
Proof.
  intros Hv Hlt.
  destruct (gt_tenth_normal _ _ _ Hv Hlt) as (_ & Hd & He2 & Hgt).
  change (of_int base_frames)
    with (S754_finite false 8444249301319680 (-45)).
  assert (Hd1 : Z.pos (digits2_pos 8444249301319680) = 53)
    by (vm_compute; reflexivity).
  destruct (div_pos_spec 8444249301319680 m2 (-45) e2)
    as (m & e & t & Heq & Ht & HE & HM & _); rewrite ?Hd1, ?Hd; try lia.
  rewrite Hd1, Hd in HE, HM. cbv zeta in HE, HM.
  exists m, e. split; [exact Heq | ].
  set (E := 53 + -45 - (53 + e2) - 53 + t) in *.
  replace (53 + 53 - 53) with 53 in HM by lia.
  set (M := Z.pos m * 2 ^ (e - E)) in *.
  assert (HEneg : - E = 98 + e2 - t) by (subst E; lia).
  rewrite (trunc_mag_rescale m e E) by lia. fold M. rewrite HEneg.
  assert (HP : 0 < 2 ^ (98 + e2 - t)) by (apply Z.pow_pos_nonneg; lia).
  assert (Hpt : 0 < 2 ^ t) by (apply Z.pow_pos_nonneg; lia).
  assert (HM0 : 0 <= 8444249301319680 * 2 ^ 53 / (Z.pos m2 * 2 ^ t))
    by (apply Z.div_pos; lia).
  split; [apply Z.div_pos; lia | ].
  apply Z.div_le_upper_bound; [lia | ].
  assert (Hlt' : 8444249301319680 * 2 ^ 53 / (Z.pos m2 * 2 ^ t)
                 < 2 ^ (98 + e2 - t) * 2400); [ | lia].
  apply Z.div_lt_upper_bound; [lia | ].
  replace (Z.pos m2 * 2 ^ t * (2 ^ (98 + e2 - t) * 2400))
    with (2400 * 2 ^ 42 * (Z.pos m2 * 2 ^ (e2 + 56))).
  - change (8444249301319680 * 2 ^ 53)
      with (2400 * 2 ^ 42 * 2 ^ 56 / 10) .
    change (2 ^ 56) with 72057594037927936 in *.
    change (2 ^ 42) with 4398046511104.
    apply Z.div_lt_upper_bound; lia.
  - assert (Hpow : 2 ^ t * 2 ^ (98 + e2 - t) = 2 ^ 42 * 2 ^ (e2 + 56))
      by (rewrite <- !Z.pow_add_r by lia; f_equal; lia).
    set (A := 2 ^ (98 + e2 - t)) in *. set (B := 2 ^ t) in *.
    set (X := 2 ^ (e2 + 56)) in *. set (C := 2 ^ 42) in *.
    transitivity (2400 * Z.pos m2 * (C * X)); [ring | ].
    rewrite <- Hpow. ring.
Qed.

(** The frame count is produced for every float, and lies in
    [[60, 2400]]. *)
Lemma frames_of_total (speed : float) :
  valid speed = true ->
  exists n, frames_of speed = Ok n /\ 60 <= n <= 2400.
Proof.
  intros Hv. unfold frames_of, py_max_float.
  destruct (ltb f0_1 speed) eqn:Hlt.
  - destruct speed as [s | s | | s m2 e2]; try discriminate.
    + destruct s; [discriminate | ]. exists 60. now vm_compute.
    + destruct (gt_tenth_normal _ _ _ Hv Hlt) as (-> & _).
      destruct (div_240_spec m2 e2 Hv Hlt) as (m & e & Heq & Htr).
      unfold py_float_truediv. cbn [is_zero bind]. rewrite Heq.
      cbn [py_int bind]. eexists. split; [reflexivity | lia].
  - exists 2400. now vm_compute.
Qed.

(** The frame count is the truncated quotient, clamped below by 60. *)
Lemma frames_of_trunc (speed : float) :
  valid speed = true ->
  frames_of speed = Ok (spec_frame_count_trunc speed).
Proof.
  intros Hv. unfold frames_of, spec_frame_count_trunc, py_max_float.
  destruct (ltb f0_1 speed) eqn:Hlt.
  - destruct speed as [s | s | | s m2 e2]; try discriminate.
    + destruct s; [discriminate | ]. now vm_compute.
    + destruct (gt_tenth_normal _ _ _ Hv Hlt) as (-> & _).
      destruct (div_240_spec m2 e2 Hv Hlt) as (m & e & Heq & Htr).
      unfold py_float_truediv. cbn [is_zero bind].
      change (of_int 240) with (of_int base_frames).
      rewrite Heq. reflexivity.
  - now vm_compute.
Qed.

(** The divisor [max(0.1, speed)] is never a zero. *)
Lemma divisor_not_zero (speed : float) :
  is_zero (py_max_float f0_1 speed) = false.
Proof.
  unfold py_max_float. destruct (ltb f0_1 speed) eqn:Hlt; [ | reflexivity].
  destruct speed; try reflexivity. discriminate.
Qed.

Lemma ltb_tenth_antisym (speed : float) :
  ltb speed f0_1 = true -> ltb f0_1 speed = false.
Proof.
  unfold ltb, SFltb, f0_1, SFcompare.
  destruct speed as [s | [ | ] | | [ | ] m e]; try reflexivity;
    try discriminate.
  rewrite (Z.compare_antisym e (-56)).
  destruct (e ?= -56); cbn [CompOpp]; try reflexivity; try discriminate.
  pose proof (Pos.compare_cont_antisym m 7205759403792794 Eq) as Ha.
  cbn [CompOpp] in Ha. rewrite <- Ha.
  destruct (Pos.compare_cont Eq m 7205759403792794); cbn [CompOpp];
    try reflexivity; discriminate.
Qed.

(** Whatever does not compare above [0.1] is replaced by [0.1]. *)
Lemma frames_of_clamped (speed : float) :
  ltb f0_1 speed = false -> frames_of speed = frames_of f0_1.
Proof.
  intros H. unfold frames_of, py_max_float. rewrite H.
  replace (ltb f0_1 f0_1) with false by (vm_compute; reflexivity).
  reflexivity.
Qed.

(** ** Ints below [2^53]: the quotient of the converted operands

    For such ints CPython divides [float(a)] by [float(b)].  The lemmas
    below show that [div] gives the same float on the ints passed as they
    are, so that [py_int_truediv] is that division. *)

Lemma binary_round_aux_exact (sx : bool) (p : positive) (e : Z) :
  2 ^ 52 <= Z.pos p < 2 ^ 53 -> -1074 <= e <= 971 ->
  binary_round_aux prec emax sx (Z.pos p) e loc_Exact = S754_finite sx p e.
Proof.
  intros Hp He. rewrite binary_round_aux_eq, shr_fexp_keep by lia.
  cbn [shr_record_of_loc shr_m loc_of_shr_record round_nearest_even].
  unfold round_finish. rewrite shr_fexp_keep by lia.
  cbn [shr_record_of_loc shr_m]. unfold emax, prec.
  destruct (Z.leb_spec e (1024 - 53)); [reflexivity | lia].
Qed.

Lemma pos_iter_xO (a d : positive) :
  Z.pos (Pos.iter xO a d) = Z.pos a * 2 ^ Z.pos d.
Proof.
  induction d as [ | d IH] using Pos.peano_ind.
  - cbn [Pos.iter]. rewrite Pos2Z.inj_xO. change (2 ^ 1) with 2. lia.
  - rewrite Pos.iter_succ, Pos2Z.inj_xO, IH, Pos2Z.inj_succ.
    rewrite Z.pow_succ_r by lia. ring.
Qed.

(** [float(a)] for a positive int below [2^53]: the int itself, with its
    mantissa shifted to 53 digits. *)
Lemma of_int_pos (a : positive) :
  Z.pos a < 2 ^ 53 ->
  exists m,
    of_int (Z.pos a) = S754_finite false m (Z.pos (digits2_pos a) - 53) /\
    Z.pos m = Z.pos a * 2 ^ (53 - Z.pos (digits2_pos a)).
Proof.
  intros Ha.
  pose proof (digits_lower a) as La. pose proof (digits_upper a) as Ua.
  pose proof (digits_le_of_lt a 53 Ha) as Hd.
  set (da := Z.pos (digits2_pos a)) in *.
  assert (Hda : 0 < da) by (subst da; lia).
  unfold of_int, binary_normalize, binary_round, shl_align.
  fold da. rewrite Z.add_0_r, fexp_normal by lia. rewrite Z.sub_0_r.
  destruct (da - 53) as [ | k | k] eqn:Ek; try lia.
  - exists a. assert (Hda53 : da = 53) by lia.
    rewrite Hda53 in *. change (53 - 53) with 0.
    rewrite Z.pow_0_r, Z.mul_1_r. split; [ | reflexivity].
    apply binary_round_aux_exact; [ | lia].
    change (2 ^ (53 - 1)) with (2 ^ 52) in La. lia.
  - exists (Pos.iter xO a k).
    assert (Hv : Z.pos (Pos.iter xO a k) = Z.pos a * 2 ^ (53 - da)).
    { rewrite pos_iter_xO. do 2 f_equal. lia. }
    split; [ | exact Hv].
    apply binary_round_aux_exact; [ | lia].
    rewrite Hv. split.
    + replace (2 ^ 52) with (2 ^ (da - 1) * 2 ^ (53 - da)).
      * apply Z.mul_le_mono_nonneg_r; [apply Z.pow_nonneg; lia | exact La].
      * rewrite <- Z.pow_add_r by lia. f_equal. lia.
    + replace (2 ^ 53) with (2 ^ da * 2 ^ (53 - da)).
      * apply Z.mul_lt_mono_pos_r; [apply Z.pow_pos_nonneg; lia | exact Ua].
      * rewrite <- Z.pow_add_r by lia. f_equal. lia.
Qed.

(** The position of a remainder does not change when the remainder and the
    divisor are scaled by the same power of two. *)
Lemma new_location_scale (n r k : Z) :
  0 < n -> 0 <= r -> 0 <= k ->
  new_location (n * 2 ^ k) (r * 2 ^ k) = new_location n r.
Proof.
  intros Hn Hr Hk.
  destruct (Z.eq_dec k 0) as [-> | Hk0];
    [now rewrite Z.pow_0_r, !Z.mul_1_r | ].
  assert (Hc : 0 < 2 ^ k) by (apply Z.pow_pos_nonneg; lia).
  assert (Heven : Z.even (n * 2 ^ k) = true).
  { rewrite Z.even_mul, Z.even_pow by lia. apply orb_true_r. }
  unfold new_location. rewrite Heven.
  unfold new_location_even, new_location_odd.
  assert (Hz : (r * 2 ^ k =? 0) = (r =? 0)).
  { destruct (Z.eqb_spec r 0) as [-> | Hr0]; [reflexivity | ].
    apply Z.eqb_neq. nia. }
  assert (Hcmp : (2 * (r * 2 ^ k) ?= n * 2 ^ k) = (2 * r ?= n)).
  { replace (2 * (r * 2 ^ k)) with (2 * r * 2 ^ k) by ring.
    symmetry. apply Zmult_compare_compat_r. lia. }
  rewrite Hz, Hcmp.
  destruct (Z.even n) eqn:En; cbv beta; [reflexivity | ].
  destruct (r =? 0); [reflexivity | ].
  assert (Hodd : Z.odd n = true) by (now rewrite <- Z.negb_even, En).
  apply Z.odd_spec in Hodd as [j Hj].
  destruct (Z.compare_spec (2 * r) n); destruct (Z.compare_spec (2 * r + 1) n);
    try reflexivity; lia.
Qed.

Lemma digits_shifted (a m : positive) (k : Z) :
  0 <= k -> Z.pos m = Z.pos a * 2 ^ k ->
  Z.pos (digits2_pos m) = Z.pos (digits2_pos a) + k.
Proof.
  intros Hk Hm.
  pose proof (digits_lower a) as La. pose proof (digits_upper a) as Ua.
  set (da := Z.pos (digits2_pos a)) in *.
  assert (Hda : 0 < da) by (subst da; lia).
  apply digits_unique. rewrite Hm. split.
  - replace (da + k - 1) with (da - 1 + k) by lia.
    rewrite Z.pow_add_r by lia.
    apply Z.mul_le_mono_nonneg_r; [apply Z.pow_nonneg; lia | exact La].
  - rewrite Z.pow_add_r by lia.
    apply Z.mul_lt_mono_pos_r; [apply Z.pow_pos_nonneg; lia | exact Ua].
Qed.

Lemma div_of_int_agrees (a b : positive) :
  Z.pos a < 2 ^ 53 -> Z.pos b < 2 ^ 53 ->
  div (int_as_float (Z.pos a)) (int_as_float (Z.pos b))
  = div (of_int (Z.pos a)) (of_int (Z.pos b)).
Proof.
  intros Ha Hb.
  destruct (of_int_pos a Ha) as (ma & -> & Hma).
  destruct (of_int_pos b Hb) as (mb & -> & Hmb).
  pose proof (digits_le_of_lt a 53 Ha) as Hda.
  pose proof (digits_le_of_lt b 53 Hb) as Hdb.
  assert (Dma := digits_shifted a ma (53 - Z.pos (digits2_pos a))
                   ltac:(lia) Hma).
  assert (Dmb := digits_shifted b mb (53 - Z.pos (digits2_pos b))
                   ltac:(lia) Hmb).
  set (da := Z.pos (digits2_pos a)) in *.
  set (db := Z.pos (digits2_pos b)) in *.
  assert (Hda0 : 0 < da) by (subst da; lia).
  assert (Hdb0 : 0 < db) by (subst db; lia).
  cbn [int_as_float].
  unfold div, SFdiv, SFdiv_core_binary. cbn [Zdigits2 xorb].
  fold da db. rewrite Dma, Dmb.
  replace (da + (53 - da) + (da - 53) - (db + (53 - db) + (db - 53)))
    with (da - db) by lia.
  replace (da + 0 - (db + 0)) with (da - db) by lia.
  rewrite fexp_normal by lia.
  replace (Z.min (da - db - 53) (0 - 0)) with (da - db - 53) by lia.
  replace (Z.min (da - db - 53) (da - 53 - (db - 53)))
    with (da - db - 53) by lia.
  replace (0 - 0 - (da - db - 53)) with (53 + db - da) by lia.
  replace (da - 53 - (db - 53) - (da - db - 53)) with 53 by lia.
  cbv iota.
  rewrite (Z.shiftl_mul_pow2 (Z.pos ma) 53) by lia.
  set (s := 53 + db - da).
  assert (Hs : 0 <= s) by (subst s; lia).
  assert (HN : match s with
               | 0 => Z.pos a
               | Z.pos _ => Z.shiftl (Z.pos a) s
               | Z.neg _ => 0
               end = Z.pos a * 2 ^ s).
  { destruct s as [ | p | p] eqn:Es.
    - rewrite Z.pow_0_r. lia.
    - now rewrite Z.shiftl_mul_pow2 by lia.
    - lia. }
  rewrite HN, !div_eucl_div_mod.
  set (k := 53 - db) in *.
  assert (Hk : 0 <= k) by (subst k; lia).
  assert (Hpk : 0 < 2 ^ k) by (apply Z.pow_pos_nonneg; lia).
  assert (Hnum : Z.pos ma * 2 ^ 53 = Z.pos a * 2 ^ s * 2 ^ k).
  { rewrite Hma, <- !Z.mul_assoc, <- !Z.pow_add_r by lia.
    do 2 f_equal. subst s k. lia. }
  rewrite Hnum, Hmb.
  rewrite Z.div_mul_cancel_r by lia.
  rewrite Z.mul_mod_distr_r by lia.
  rewrite new_location_scale; try lia.
  - reflexivity.
  - apply Z.mod_pos_bound. lia.
Qed.

(** [a / b] on positive ints below [2^53] is the division of the two
    converted operands. *)
Lemma py_int_truediv_small (a b : positive) :
  Z.pos a < 2 ^ 53 -> Z.pos b < 2 ^ 53 ->
  py_int_truediv (Z.pos a) (Z.pos b)
  = py_float_truediv (of_int (Z.pos a)) (of_int (Z.pos b)).
Proof.
  intros Ha Hb. unfold py_int_truediv, py_float_truediv.
  rewrite div_of_int_agrees by assumption.
  destruct (of_int_pos b Hb) as (mb & -> & _). reflexivity.
Qed.

End Binary64Facts.

(** * The reveal scheduler *)

Section SchedulerFacts.

Context {A : Type}.
Implicit Types (s : session A) (d : display A) (x y : list A).

Lemma py_slice_to_firstn x (i : Z) :
  0 <= i -> py_slice_to x i = firstn (Z.to_nat i) x.
Proof.
  intros Hi. unfold py_slice_to.
  destruct (Z.ltb_spec i 0); [lia | reflexivity].
Qed.

Lemma len_firstn x (i : Z) :
  0 <= i <= len x -> len (firstn (Z.to_nat i) x) = i.
Proof.
  unfold len. intros Hi. rewrite length_firstn. lia.
Qed.

(** The frame count fixes the session. *)
Lemma prepare_ok x y (speed : float) :
  valid speed = true ->
  exists fr,
    frames_of speed = Ok fr /\ 60 <= fr <= 2400 /\
    prepare x y speed = Ok (mkSession x y fr (idx_per_frame_of (len x) fr)).
Proof.
  intros Hv.
  destruct (Binary64Facts.frames_of_total speed Hv) as (fr & Hfr & Hb).
  exists fr. unfold prepare. rewrite Hfr. now cbn.
Qed.

Lemma idx_per_frame_of_pos (n fr : Z) : 1 <= idx_per_frame_of n fr.
Proof. unfold idx_per_frame_of. lia. Qed.

Lemma revealed_count_range s (frame : Z) :
  0 <= frame -> 1 <= idx_per_frame s ->
  0 <= revealed_count s frame <= len (xs s).
Proof.
  intros Hf Hi. unfold revealed_count, len. nia.
Qed.

(** Line 55 computes the floor of the exact quotient. *)
Lemma percent_floor s (i : Z) :
  0 <= i <= len (xs s) -> 0 < len (xs s) < 2 ^ 46 ->
  percent s i = Ok (100 * i / len (xs s)).
Proof.
  intros Hi Hn. unfold percent, py_int_truediv.
  destruct (Z.eqb_spec (len (xs s)) 0) as [H0 | _]; [lia | ].
  destruct (len (xs s)) as [ | n | n] eqn:En; try lia.
  destruct i as [ | p | p]; try lia.
  - reflexivity.
  - change (100 * Z.pos p) with (Z.pos (100 * p)).
    cbn [int_as_float bind].
    destruct (Binary64Facts.trunc_div_floor (100 * p) n)
      as (m & e & Heq & Htr); try lia.
    rewrite Heq. cbn [py_int]. now rewrite Htr.
Qed.

(** What one call of [update] writes in a figure that has its window. *)
Lemma update_spec s (frame : Z) d :
  manager d <> None ->
  0 <= frame -> 1 <= idx_per_frame s -> 0 < len (xs s) < 2 ^ 46 ->
  let i := revealed_count s frame in
  let pct := 100 * i / len (xs s) in
  update s frame d =
  (Ok tt,
   mkDisplay (firstn (Z.to_nat i) (xs s)) (firstn (Z.to_nat i) (ys s))
     (str_of_int pct ++ "%")
     (Some ("Rose Drawing — " ++ str_of_int pct ++ "%")%string)).
Proof.
  intros Hm Hf Hi Hn i pct.
  pose proof (revealed_count_range s frame Hf Hi) as Hr. fold i in Hr.
  unfold update. fold i.
  rewrite !py_slice_to_firstn by lia.
  unfold abind, lift, set_data, set_text, set_window_title.
  rewrite (percent_floor s i) by lia. cbn [manager].
  destruct (manager d); [reflexivity | congruence].
Qed.

(** Without the window, line 57 raises after the line and the label are
    written. *)
Lemma update_no_manager s (frame : Z) d :
  manager d = None ->
  0 <= frame -> 1 <= idx_per_frame s -> 0 < len (xs s) < 2 ^ 46 ->
  let i := revealed_count s frame in
  let pct := 100 * i / len (xs s) in
  update s frame d =
  (Raise AttributeError,
   mkDisplay (firstn (Z.to_nat i) (xs s)) (firstn (Z.to_nat i) (ys s))
     (str_of_int pct ++ "%") None).
Proof.
  intros Hm Hf Hi Hn i pct.
  pose proof (revealed_count_range s frame Hf Hi) as Hr. fold i in Hr.
  unfold update. fold i.
  rewrite !py_slice_to_firstn by lia.
  unfold abind, lift, set_data, set_text, set_window_title.
  rewrite (percent_floor s i) by lia. cbn [manager].
  rewrite Hm. reflexivity.
Qed.

(** The line data are written first, whatever happens to the label and to
    the title. *)
Lemma update_line s (frame : Z) d :
  0 <= frame -> 1 <= idx_per_frame s ->
  let i := revealed_count s frame in
  line_x (snd (update s frame d)) = firstn (Z.to_nat i) (xs s) /\
  line_y (snd (update s frame d)) = firstn (Z.to_nat i) (ys s).
Proof.
  intros Hf Hi i.
  pose proof (revealed_count_range s frame Hf Hi) as Hr. fold i in Hr.
  unfold update. fold i.
  rewrite !py_slice_to_firstn by lia.
  unfold abind, lift, set_data, set_text, set_window_title.
  destruct (percent s i); cbn; [ | split; reflexivity].
  destruct (manager d); cbn; split; reflexivity.
Qed.

(** The label is written before the title, with or without the window. *)
Lemma update_label s (frame : Z) d :
  0 <= frame -> 1 <= idx_per_frame s -> 0 < len (xs s) < 2 ^ 46 ->
  pct_text (snd (update s frame d)) =
  (str_of_int (100 * revealed_count s frame / len (xs s)) ++ "%")%string.
Proof.
  intros Hf Hi Hn.
  destruct (manager d) as [t | ] eqn:Hm.
  - rewrite update_spec by (assumption || congruence). reflexivity.
  - rewrite update_no_manager by assumption. reflexivity.
Qed.

(** What [update] returns is decided by the window alone. *)
Lemma update_result s (frame : Z) d :
  0 <= frame -> 1 <= idx_per_frame s -> 0 < len (xs s) < 2 ^ 46 ->
  (manager d <> None -> fst (update s frame d) = Ok tt) /\
  (manager d = None -> fst (update s frame d) = Raise AttributeError).
Proof.
  intros Hf Hi Hn. split; intros Hm.
  - rewrite update_spec by assumption. reflexivity.
  - rewrite update_no_manager by assumption. reflexivity.
Qed.

(** The percentage lies between 0 and 100. *)
Lemma percent_range s (frame : Z) :
  0 <= frame -> 1 <= idx_per_frame s -> 0 < len (xs s) ->
  0 <= 100 * revealed_count s frame / len (xs s) <= 100.
Proof.
  intros Hf Hi Hn.
  pose proof (revealed_count_range s frame Hf Hi) as Hr.
  split.
  - apply Z.div_pos; lia.
  - apply Z.div_le_upper_bound; lia.
Qed.

(** [str] writes the numbers 0 to 100 in decimal: one to three digits
    that denote the number, no zero in front. *)
Lemma str_of_int_decimal (n : Z) :
  0 <= n <= 100 -> decimal_of n (str_of_int n) = true.
Proof.
  intros Hn.
  assert (Hall : forallb (fun k => decimal_of k (str_of_int k))
                   (py_range 101) = true) by (vm_compute; reflexivity).
  rewrite forallb_forall in Hall. apply Hall.
  unfold py_range. apply in_map_iff. exists (Z.to_nat n).
  split; [lia | ]. apply in_seq. lia.
Qed.

Lemma py_range_snoc (n : Z) :
  0 < n -> py_range n = py_range (n - 1) ++ [n - 1].
Proof.
  intros Hn. unfold py_range.
  replace (Z.to_nat n) with (S (Z.to_nat (n - 1))) by lia.
  rewrite seq_S, map_app. cbn [map Nat.add]. do 2 f_equal. lia.
Qed.

Lemma py_range_nonneg (n g : Z) : In g (py_range n) -> 0 <= g.
Proof.
  unfold py_range. intros [k [<- _]]%in_map_iff. lia.
Qed.

Lemma py_range_cons (n : Z) :
  0 < n -> exists rest, py_range n = 0 :: rest.
Proof.
  intros Hn. unfold py_range.
  replace (Z.to_nat n) with (S (Z.to_nat (n - 1))) by lia.
  cbn [seq map]. eexists. reflexivity.
Qed.

(** In a figure that has its window every [update] overwrites the whole
    figure, so a run of frames leaves what its last frame wrote. *)
Lemma run_frames_last s (fs : list Z) (f : Z) d :
  manager d <> None ->
  (forall g, In g (fs ++ [f]) -> 0 <= g) ->
  1 <= idx_per_frame s -> 0 < len (xs s) < 2 ^ 46 ->
  run_frames s (fs ++ [f]) d = update s f d.
Proof.
  intros Hm Hfs Hi Hn. revert d Hm.
  assert (Hf : 0 <= f) by (apply Hfs, in_or_app; right; now left).
  induction fs as [ | g fs IH]; intros d Hm.
  - cbn [app run_frames]. unfold abind at 1.
    rewrite (update_spec s f d Hm Hf Hi Hn). reflexivity.
  - cbn [app run_frames]. unfold abind at 1.
    assert (Hg : 0 <= g) by (apply Hfs; now left).
    rewrite (update_spec s g d Hm Hg Hi Hn).
    rewrite IH by
      (first [intros h Hh; apply Hfs; now right | cbn [manager]; discriminate]).
    now rewrite !update_spec
      by first [assumption | cbn [manager]; discriminate].
Qed.

Lemma play_last_update s d :
  manager d <> None ->
  0 < frames s -> 1 <= idx_per_frame s -> 0 < len (xs s) < 2 ^ 46 ->
  play s d = update s (frames s - 1) d.
Proof.
  intros Hm Hfr Hi Hn.
  unfold play, abind at 1, init, abind, set_data, set_text.
  rewrite (py_range_snoc (frames s)) by assumption.
  rewrite run_frames_last; try assumption.
  - now rewrite !update_spec
      by first [assumption | lia | cbn [manager]; assumption].
  - intros g Hg. rewrite <- py_range_snoc in Hg by assumption.
    now apply py_range_nonneg in Hg.
Qed.

(** Without the window the driver stops at frame 0. *)
Lemma play_no_manager s d :
  manager d = None ->
  0 < frames s -> 1 <= idx_per_frame s -> 0 < len (xs s) < 2 ^ 46 ->
  play s d = update s 0 (snd (init d)).
Proof.
  intros Hm Hfr Hi Hn.
  unfold play, abind at 1, init, abind, set_data, set_text. cbn [snd].
  destruct (py_range_cons (frames s) Hfr) as [rest ->].
  cbn [run_frames]. unfold abind at 1.
  rewrite update_no_manager by first [assumption | lia]. reflexivity.
Qed.

(** Without points the percentage divides by zero: the line is cleared and
    the exception leaves the callback. *)
Lemma update_no_points s (f : Z) d :
  xs s = [] -> 0 <= f -> 1 <= idx_per_frame s ->
  update s f d =
  (Raise ZeroDivisionError,
   mkDisplay [] (firstn 0 (ys s)) (pct_text d) (manager d)).
Proof.
  intros Hx Hf Hi. unfold update, revealed_count, percent. rewrite Hx.
  change (len (@nil A)) with 0.
  replace (Z.min 0 ((f + 1) * idx_per_frame s)) with 0 by nia.
  reflexivity.
Qed.

End SchedulerFacts.

Section SchedulerClaims.

Context {A : Type}.
Implicit Types (s : session A) (d : display A) (x y : list A).

(** When the last frame shows the whole curve: the floor in
    [idx_per_frame] loses the remainder of [len(x) / frames]. *)
Lemma last_frame_full_iff (n fr : Z) :
  0 < fr -> 0 <= n ->
  (Z.min n ((fr - 1 + 1) * idx_per_frame_of n fr) = n
   <-> n <= fr \/ n mod fr = 0).
Proof.
  intros Hfr Hn. unfold idx_per_frame_of.
  replace (fr - 1 + 1) with fr by lia.
  pose proof (Z.div_mod n fr ltac:(lia)) as Hdm.
  pose proof (Z.mod_pos_bound n fr Hfr) as Hmod.
  assert (Hq : 0 <= n / fr) by (apply Z.div_pos; lia).
  destruct (Z_le_gt_dec (n / fr) 1) as [Hsmall | Hbig].
  - rewrite Z.max_l by lia. rewrite Z.mul_1_r.
    split; intros H.
    + left. lia.
    + destruct H as [H | H]; [lia | ].
      assert (n / fr = 0 \/ n / fr = 1) as [H0 | H1] by lia; nia.
  - rewrite Z.max_r by lia. split; intros H.
    + right. nia.
    + destruct H as [H | H]; nia.
Qed.

(** C1, at the function's own defaults (points=3000, speed=1.0): the
    session has 240 frames of 12 points, so the last frame, 239, shows
    2880 of the 3000 points and the label reads 96%, whatever the figure
    showed before.  In the figure on display (the one that has its window)
    the call returns, and the whole animation ends in that state. *)
Theorem last_frame_of_defaults x y d :
  len x = 3000 -> len y = 3000 ->
  exists s,
    prepare x y (lit 1 1) = Ok s /\
    frames s = 240 /\ idx_per_frame s = 12 /\
    revealed_count s (frames s - 1) = 2880 /\
    line_x (snd (update s (frames s - 1) d)) = firstn 2880 x /\
    len (line_x (snd (update s (frames s - 1) d))) = 2880 /\
    pct_text (snd (update s (frames s - 1) d)) = "96%"%string /\
    (manager d <> None ->
     exists d',
       update s (frames s - 1) d = (Ok tt, d') /\
       play s d = (Ok tt, d') /\
       line_x d' = firstn 2880 x /\ len (line_x d') = 2880 /\
       pct_text d' = "96%"%string).
Proof.
  intros Hx Hy.
  exists (mkSession x y 240 12).
  assert (Hp : prepare x y (lit 1 1) = Ok (mkSession x y 240 12)).
  { unfold prepare.
    replace (frames_of (lit 1 1)) with (Ok (A := Z) 240)
      by (vm_compute; reflexivity).
    cbn [bind]. rewrite Hx. reflexivity. }
  assert (Hrc : revealed_count (mkSession x y 240 12) 239 = 2880).
  { unfold revealed_count. cbn [xs idx_per_frame]. rewrite Hx. reflexivity. }
  split; [exact Hp | ]. split; [reflexivity | ]. split; [reflexivity | ].
  cbn [frames]. change (240 - 1) with 239.
  split; [exact Hrc | ].
  destruct (update_line (mkSession x y 240 12) 239 d) as [Hlx _];
    [lia | cbn [idx_per_frame]; lia | ].
  rewrite Hrc in Hlx. cbn [xs] in Hlx.
  pose proof (update_label (mkSession x y 240 12) 239 d) as Hlab.
  rewrite Hrc in Hlab. cbn [xs idx_per_frame] in Hlab. rewrite Hx in Hlab.
  specialize (Hlab ltac:(lia) ltac:(lia) (conj eq_refl eq_refl)).
  split; [exact Hlx | ].
  split; [rewrite Hlx; apply len_firstn; lia | ].
  split; [exact Hlab | ].
  intros Hm.
  pose proof (update_spec (mkSession x y 240 12) 239 d) as Hu.
  cbv zeta in Hu. rewrite Hrc in Hu. cbn [xs ys idx_per_frame] in Hu.
  rewrite Hx in Hu.
  specialize (Hu Hm ltac:(lia) ltac:(lia) (conj eq_refl eq_refl)).
  eexists.
  split; [exact Hu | ].
  split.
  { rewrite play_last_update; cbn [frames idx_per_frame xs]; rewrite ?Hx;
      [exact Hu | exact Hm | lia | lia | split; reflexivity]. }
  cbn [line_x pct_text].
  split; [reflexivity | ].
  split; [apply len_firstn; lia | reflexivity].
Qed.

(** C3: the session that [animate_rose] captures holds the two arrays,
    the frame count of line 44 (between 60 and 2400, so never 0) and
    [idx_per_frame = max(1, len(x) // frames)], the quotient being the
    floor of [len(x) / frames].  At every frame [f >= 0] it reveals
    [min(len(x), (f + 1) * idx_per_frame)] points, and [update] leaves on
    the line exactly the prefix of that length of both arrays, whether the
    figure has its window or not.  For an array of 1 to 2^46 - 1 points
    [update] returns when the figure has its window and raises
    [AttributeError] (line 57, after the line is written) when it has
    not. *)
Theorem update_reveals_prefix x y (speed : float) (f : Z) d :
  valid speed = true -> 0 <= f -> len y = len x ->
  exists s,
    prepare x y speed = Ok s /\
    xs s = x /\ ys s = y /\
    frames_of speed = Ok (frames s) /\
    60 <= frames s <= 2400 /\
    idx_per_frame s = Z.max 1 (len x / frames s) /\
    frames s * (len x / frames s) <= len x
      < frames s * (len x / frames s + 1) /\
    revealed_count s f = Z.min (len x) ((f + 1) * idx_per_frame s) /\
    line_x (snd (update s f d)) = firstn (Z.to_nat (revealed_count s f)) x /\
    line_y (snd (update s f d)) = firstn (Z.to_nat (revealed_count s f)) y /\
    len (line_x (snd (update s f d))) = revealed_count s f /\
    len (line_y (snd (update s f d))) = revealed_count s f /\
    (0 < len x < 2 ^ 46 ->
     (manager d <> None -> fst (update s f d) = Ok tt) /\
     (manager d = None -> fst (update s f d) = Raise AttributeError)).
Proof.
  intros Hv Hf Hxy.
  destruct (prepare_ok x y speed Hv) as (fr & Hfr & Hb & Hp).
  set (s := mkSession x y fr (idx_per_frame_of (len x) fr)) in *.
  pose proof (idx_per_frame_of_pos (len x) fr) as Hi.
  pose proof (revealed_count_range s f Hf Hi) as Hr.
  destruct (update_line s f d Hf Hi) as [Hlx Hly].
  exists s. split; [exact Hp | ].
  split; [reflexivity | ]. split; [reflexivity | ].
  split; [exact Hfr | ]. split; [exact Hb | ].
  split; [reflexivity | ].
  split.
  { cbn [frames s].
    pose proof (Z.mul_div_le (len x) fr ltac:(lia)).
    pose proof (Z.mul_succ_div_gt (len x) fr ltac:(lia)).
    lia. }
  split; [reflexivity | ].
  rewrite Hlx, Hly.
  change (xs s) with x in *. change (ys s) with y in *.
  split; [reflexivity | ]. split; [reflexivity | ].
  split; [apply len_firstn; lia | ].
  split; [apply len_firstn; lia | ].
  intros Hn. apply update_result; assumption.
Qed.

(** C5: after [update] on frame [f] the label is the integer
    [p = floor(100 * revealedCount(f) / len(x))], between 0 and 100,
    written in decimal (digits that denote [p], no zero in front) and
    followed by a percent sign, for arrays of 1 to 2^46 - 1 points and
    whether the figure has its window or not: line 56 runs before line 57,
    which raises [AttributeError] without the window.  Before any update
    (as created, and after [init]) the label is "0%" and the line is
    empty. *)
Theorem percent_label x y (speed : float) (f : Z) d (title : string) :
  valid speed = true -> 0 <= f -> 0 < len x < 2 ^ 46 ->
  exists s p digits,
    prepare x y speed = Ok s /\
    p = 100 * revealed_count s f / len x /\
    0 <= p <= 100 /\
    pct_text (snd (update s f d)) = (digits ++ "%")%string /\
    decimal_value digits = Some p /\
    no_leading_zero digits = true /\
    digits = str_of_int p /\
    (manager d <> None -> fst (update s f d) = Ok tt) /\
    (manager d = None -> fst (update s f d) = Raise AttributeError) /\
    pct_text (initial_display (A := A) title) = "0%"%string /\
    line_x (initial_display (A := A) title) = [] /\
    line_y (initial_display (A := A) title) = [] /\
    fst (init d) = Ok tt /\
    pct_text (snd (init d)) = "0%"%string /\
    line_x (snd (init d)) = [] /\
    line_y (snd (init d)) = [].
Proof.
  intros Hv Hf Hn.
  destruct (prepare_ok x y speed Hv) as (fr & Hfr & Hb & Hp).
  set (s := mkSession x y fr (idx_per_frame_of (len x) fr)) in *.
  pose proof (idx_per_frame_of_pos (len x) fr) as Hi.
  pose proof (percent_range s f Hf Hi ltac:(cbn [xs s]; lia)) as Hpr.
  pose proof (str_of_int_decimal _ Hpr) as Hdec.
  change (len (xs s)) with (len x) in *.
  set (p := 100 * revealed_count s f / len x) in *.
  unfold decimal_of in Hdec.
  destruct (decimal_value (str_of_int p)) as [v | ] eqn:Hval;
    [ | discriminate].
  apply andb_prop in Hdec as [Hv' Hz]. apply Z.eqb_eq in Hv'. subst v.
  exists s, p, (str_of_int p). split; [exact Hp | ].
  split; [reflexivity | ]. split; [exact Hpr | ].
  split; [apply (update_label s f d); assumption | ].
  split; [exact Hval | ]. split; [exact Hz | ]. split; [reflexivity | ].
  destruct (update_result s f d Hf Hi Hn) as [Hok Hraise].
  split; [exact Hok | ]. split; [exact Hraise | ].
  repeat split; reflexivity.
Qed.

(** C6: within a session the revealed count never decreases from one
    frame to a later one. *)
Theorem revealed_count_monotone x y (speed : float) :
  valid speed = true ->
  exists s,
    prepare x y speed = Ok s /\
    forall f1 f2,
      0 <= f1 -> f1 < f2 -> f2 < frames s ->
      revealed_count s f1 <= revealed_count s f2.
Proof.
  intros Hv.
  destruct (prepare_ok x y speed Hv) as (fr & Hfr & Hb & Hp).
  exists (mkSession x y fr (idx_per_frame_of (len x) fr)).
  split; [exact Hp | ].
  intros f1 f2 H1 H12 H2. unfold revealed_count. cbn [xs idx_per_frame].
  pose proof (idx_per_frame_of_pos (len x) fr) as Hi.
  apply Z.min_le_compat_l. nia.
Qed.

(** C10: with at least one point, every frame [f >= 0] shows at least
    [min(idx_per_frame, len(x)) >= 1] points, and one frame adds at most
    [idx_per_frame] points to the one before. *)
Theorem revealed_count_step x y (speed : float) :
  valid speed = true -> 1 <= len x ->
  exists s,
    prepare x y speed = Ok s /\
    forall f,
      0 <= f ->
      1 <= Z.min (idx_per_frame s) (len x) <= revealed_count s f /\
      revealed_count s (f + 1) - revealed_count s f <= idx_per_frame s.
Proof.
  intros Hv Hn.
  destruct (prepare_ok x y speed Hv) as (fr & Hfr & Hb & Hp).
  exists (mkSession x y fr (idx_per_frame_of (len x) fr)).
  split; [exact Hp | ].
  intros f Hf. unfold revealed_count. cbn [xs idx_per_frame].
  pose proof (idx_per_frame_of_pos (len x) fr) as Hi.
  set (k := idx_per_frame_of (len x) fr) in *.
  assert (k <= (f + 1) * k) by nia.
  assert ((f + 1 + 1) * k = (f + 1) * k + k) by ring.
  lia.
Qed.

End SchedulerClaims.

(** [last_frame_of_defaults] on 3000 stand-in coordinates, in the figure
    as created. *)
Lemma last_frame_of_defaults_witness :
  len Samples.coords_default = 3000 /\
  manager Samples.figure = Some "Figure 1"%string /\
  exists s,
    prepare Samples.coords_default Samples.coords_default (lit 1 1) = Ok s /\
    frames s = 240 /\ idx_per_frame s = 12 /\
    revealed_count s (frames s - 1) = 2880 /\
    line_x (snd (update s (frames s - 1) Samples.figure))
    = firstn 2880 Samples.coords_default /\
    len (line_x (snd (update s (frames s - 1) Samples.figure))) = 2880 /\
    pct_text (snd (update s (frames s - 1) Samples.figure)) = "96%"%string /\
    (manager Samples.figure <> None ->
     exists d',
       update s (frames s - 1) Samples.figure = (Ok tt, d') /\
       play s Samples.figure = (Ok tt, d') /\
       line_x d' = firstn 2880 Samples.coords_default /\
       len (line_x d') = 2880 /\
       pct_text d' = "96%"%string).
Proof.
  split; [vm_compute; reflexivity | ].
  split; [reflexivity | ].
  apply (last_frame_of_defaults Samples.coords_default Samples.coords_default
           Samples.figure); vm_compute; reflexivity.
Defined.

(** [update_reveals_prefix] on 3000 points, at speed 1.0 and frame 2, in
    the figure without its window; then the values themselves: 240 frames
    of 12 points, 36 points on the line at frame 2, returned with the
    window and [AttributeError] without. *)
Lemma update_reveals_prefix_witness :
  (valid Samples.speed_default = true /\ 0 <= 2 /\
   len Samples.coords_default = len Samples.coords_default) /\
  (exists s,
    prepare Samples.coords_default Samples.coords_default
      Samples.speed_default = Ok s /\
    xs s = Samples.coords_default /\ ys s = Samples.coords_default /\
    frames_of Samples.speed_default = Ok (frames s) /\
    60 <= frames s <= 2400 /\
    idx_per_frame s = Z.max 1 (len Samples.coords_default / frames s) /\
    frames s * (len Samples.coords_default / frames s)
      <= len Samples.coords_default
      < frames s * (len Samples.coords_default / frames s + 1) /\
    revealed_count s 2
    = Z.min (len Samples.coords_default) ((2 + 1) * idx_per_frame s) /\
    line_x (snd (update s 2 Samples.figure_saving))
    = firstn (Z.to_nat (revealed_count s 2)) Samples.coords_default /\
    line_y (snd (update s 2 Samples.figure_saving))
    = firstn (Z.to_nat (revealed_count s 2)) Samples.coords_default /\
    len (line_x (snd (update s 2 Samples.figure_saving)))
    = revealed_count s 2 /\
    len (line_y (snd (update s 2 Samples.figure_saving)))
    = revealed_count s 2 /\
    (0 < len Samples.coords_default < 2 ^ 46 ->
     (manager Samples.figure_saving <> None ->
      fst (update s 2 Samples.figure_saving) = Ok tt) /\
     (manager Samples.figure_saving = None ->
      fst (update s 2 Samples.figure_saving) = Raise AttributeError))) /\
  prepare Samples.coords_default Samples.coords_default
    Samples.speed_default
  = Ok (mkSession Samples.coords_default Samples.coords_default 240 12) /\
  update (mkSession Samples.coords_default Samples.coords_default 240 12) 2
    Samples.figure
  = (Ok tt,
     mkDisplay (py_range 36) (py_range 36) "1%"%string
       (Some "Rose Drawing — 1%"%string)) /\
  update (mkSession Samples.coords_default Samples.coords_default 240 12) 2
    Samples.figure_saving
  = (Raise AttributeError, mkDisplay (py_range 36) (py_range 36) "1%"%string None).
Proof.
  split; [split; [reflexivity | split; [lia | reflexivity]] | ].
  split.
  - apply (update_reveals_prefix Samples.coords_default
             Samples.coords_default Samples.speed_default 2
             Samples.figure_saving);
      [reflexivity | lia | reflexivity].
  - split; [vm_compute; reflexivity | ].
    split; vm_compute; reflexivity.
Defined.

(** [percent_label] on 3000 points, at speed 1.0 and frame 238; then the
    label itself: 2868 of 3000 points is 95.6 percent, shown as "95%",
    with the window and without. *)
Lemma percent_label_witness :
  (valid Samples.speed_default = true /\ 0 <= 238 /\
   0 < len Samples.coords_default < 2 ^ 46) /\
  (exists s p digits,
    prepare Samples.coords_default Samples.coords_default
      Samples.speed_default = Ok s /\
    p = 100 * revealed_count s 238 / len Samples.coords_default /\
    0 <= p <= 100 /\
    pct_text (snd (update s 238 Samples.figure)) = (digits ++ "%")%string /\
    decimal_value digits = Some p /\
    no_leading_zero digits = true /\
    digits = str_of_int p /\
    (manager Samples.figure <> None ->
     fst (update s 238 Samples.figure) = Ok tt) /\
    (manager Samples.figure = None ->
     fst (update s 238 Samples.figure) = Raise AttributeError) /\
    pct_text (initial_display (A := Z) "Figure 1") = "0%"%string /\
    line_x (initial_display (A := Z) "Figure 1") = [] /\
    line_y (initial_display (A := Z) "Figure 1") = [] /\
    fst (init Samples.figure) = Ok tt /\
    pct_text (snd (init Samples.figure)) = "0%"%string /\
    line_x (snd (init Samples.figure)) = [] /\
    line_y (snd (init Samples.figure)) = []) /\
  prepare Samples.coords_default Samples.coords_default
    Samples.speed_default
  = Ok (mkSession Samples.coords_default Samples.coords_default 240 12) /\
  revealed_count
    (mkSession Samples.coords_default Samples.coords_default 240 12) 238
  = 2868 /\
  pct_text
    (snd (update
            (mkSession Samples.coords_default Samples.coords_default 240 12)
            238 Samples.figure))
  = "95%"%string /\
  pct_text
    (snd (update
            (mkSession Samples.coords_default Samples.coords_default 240 12)
            238 Samples.figure_saving))
  = "95%"%string /\
  str_of_int 95 = "95"%string /\ str_of_int 0 = "0"%string /\
  str_of_int 100 = "100"%string /\ str_of_int 7 = "7"%string.
Proof.
  assert (Hn : 0 < len Samples.coords_default < 2 ^ 46)
    by (split; vm_compute; reflexivity).
  split; [split; [reflexivity | split; [lia | exact Hn]] | ].
  split.
  - apply (percent_label Samples.coords_default Samples.coords_default
             Samples.speed_default 238 Samples.figure "Figure 1");
      [reflexivity | lia | exact Hn].
  - repeat (split; [vm_compute; reflexivity | ]). vm_compute; reflexivity.
Defined.

(** [revealed_count_monotone] on 3000 points, at speed 3.5. *)
Lemma revealed_count_monotone_witness :
  valid Samples.speed_fast = true /\
  exists s,
    prepare Samples.coords_default Samples.coords_default Samples.speed_fast
    = Ok s /\
    forall f1 f2,
      0 <= f1 -> f1 < f2 -> f2 < frames s ->
      revealed_count s f1 <= revealed_count s f2.
Proof.
  split; [reflexivity | ].
  apply (revealed_count_monotone Samples.coords_default
           Samples.coords_default Samples.speed_fast); reflexivity.
Defined.

(** [revealed_count_step] on five points, at speed 0.01. *)
Lemma revealed_count_step_witness :
  valid Samples.speed_slow = true /\ 1 <= len Samples.coords_small /\
  exists s,
    prepare Samples.coords_small Samples.coords_small Samples.speed_slow
    = Ok s /\
    forall f,
      0 <= f ->
      1 <= Z.min (idx_per_frame s) (len Samples.coords_small)
        <= revealed_count s f /\
      revealed_count s (f + 1) - revealed_count s f <= idx_per_frame s.
Proof.
  assert (Hn : 1 <= len Samples.coords_small) by (vm_compute; discriminate).
  split; [reflexivity | ]. split; [exact Hn | ].
  apply (revealed_count_step Samples.coords_small Samples.coords_small
           Samples.speed_slow); [reflexivity | exact Hn].
Defined.

(** * Further properties of the scheduler *)

Section SchedulerExtras.

Context {A : Type}.
Implicit Types (s : session A) (d : display A) (x y : list A).

(** The last frame shows the whole curve exactly when there are no more
    points than frames or the frame count divides the number of points. *)
Theorem last_frame_shows_all_iff x y (speed : float) :
  valid speed = true ->
  exists s,
    prepare x y speed = Ok s /\
    (revealed_count s (frames s - 1) = len x
     <-> len x <= frames s \/ len x mod frames s = 0).
Proof.
  intros Hv.
  destruct (prepare_ok x y speed Hv) as (fr & Hfr & Hb & Hp).
  exists (mkSession x y fr (idx_per_frame_of (len x) fr)).
  split; [exact Hp | ].
  unfold revealed_count. cbn [xs frames idx_per_frame].
  apply last_frame_full_iff; unfold len; lia.
Qed.

(** [init] followed by [update] on every frame of [range(frames)], for
    arrays of 1 to 2^46 - 1 points.  In a figure that has its window the
    run raises nothing and ends on what the last frame wrote.  In a figure
    without its window the run stops at frame 0 with [AttributeError]: the
    line holds the points of frame 0, the label is written, and no later
    frame is drawn. *)
Theorem play_ends_on_last_frame x y (speed : float) d :
  valid speed = true -> 0 < len x < 2 ^ 46 ->
  exists s,
    prepare x y speed = Ok s /\
    (manager d <> None ->
     play s d = update s (frames s - 1) d /\
     fst (play s d) = Ok tt) /\
    (manager d = None ->
     play s d = update s 0 (snd (init d)) /\
     fst (play s d) = Raise AttributeError /\
     line_x (snd (play s d)) = firstn (Z.to_nat (revealed_count s 0)) x /\
     revealed_count s 0 = Z.min (len x) (idx_per_frame s) /\
     manager (snd (play s d)) = None).
Proof.
  intros Hv Hn.
  destruct (prepare_ok x y speed Hv) as (fr & Hfr & Hb & Hp).
  set (s := mkSession x y fr (idx_per_frame_of (len x) fr)) in *.
  pose proof (idx_per_frame_of_pos (len x) fr) as Hi.
  exists s. split; [exact Hp | ]. split; intros Hm.
  - assert (Hpl : play s d = update s (frames s - 1) d)
      by (apply play_last_update; cbn [frames idx_per_frame xs s];
          first [exact Hm | lia]).
    split; [exact Hpl | ].
    rewrite Hpl, update_spec; cbn [frames idx_per_frame xs s];
      first [exact Hm | lia | reflexivity].
  - assert (Hpl : play s d = update s 0 (snd (init d)))
      by (apply play_no_manager; cbn [frames idx_per_frame xs s];
          first [exact Hm | lia]).
    assert (Hm0 : manager (snd (init d)) = None) by exact Hm.
    split; [exact Hpl | ].
    rewrite Hpl.
    rewrite (update_no_manager s 0 (snd (init d)) Hm0);
      cbn [frames idx_per_frame xs s]; try lia.
    cbn [fst snd line_x manager xs].
    split; [reflexivity | ]. split; [reflexivity | ].
    split; [ | reflexivity].
    unfold revealed_count. cbn [xs idx_per_frame s]. f_equal. lia.
Qed.

(** With [points = 0] the first update raises [ZeroDivisionError]. *)
Theorem update_without_points y (speed : float) (f : Z) d :
  valid speed = true -> 0 <= f ->
  exists s,
    prepare [] y speed = Ok s /\
    fst (update s f d) = Raise ZeroDivisionError.
Proof.
  intros Hv Hf.
  destruct (prepare_ok [] y speed Hv) as (fr & Hfr & Hb & Hp).
  eexists. split; [exact Hp | ].
  rewrite update_no_points; cbn [xs idx_per_frame];
    [reflexivity | reflexivity | exact Hf | apply idx_per_frame_of_pos].
Qed.

End SchedulerExtras.

(** [last_frame_shows_all_iff] on 3000 points, at speed 1.0. *)
Lemma last_frame_shows_all_iff_witness :
  valid Samples.speed_default = true /\
  exists s,
    prepare Samples.coords_default Samples.coords_default
      Samples.speed_default = Ok s /\
    (revealed_count s (frames s - 1) = len Samples.coords_default
     <-> len Samples.coords_default <= frames s \/
         len Samples.coords_default mod frames s = 0).
Proof.
  split; [reflexivity | ].
  apply (last_frame_shows_all_iff Samples.coords_default
           Samples.coords_default Samples.speed_default); reflexivity.
Defined.

(** [play_ends_on_last_frame] on 3000 points, at speed 1.0, in the figure
    without its window; then the two runs themselves. *)
Lemma play_ends_on_last_frame_witness :
  (valid Samples.speed_default = true /\
   0 < len Samples.coords_default < 2 ^ 46) /\
  (exists s,
    prepare Samples.coords_default Samples.coords_default
      Samples.speed_default = Ok s /\
    (manager Samples.figure_saving <> None ->
     play s Samples.figure_saving
     = update s (frames s - 1) Samples.figure_saving /\
     fst (play s Samples.figure_saving) = Ok tt) /\
    (manager Samples.figure_saving = None ->
     play s Samples.figure_saving
     = update s 0 (snd (init Samples.figure_saving)) /\
     fst (play s Samples.figure_saving) = Raise AttributeError /\
     line_x (snd (play s Samples.figure_saving))
     = firstn (Z.to_nat (revealed_count s 0)) Samples.coords_default /\
     revealed_count s 0
     = Z.min (len Samples.coords_default) (idx_per_frame s) /\
     manager (snd (play s Samples.figure_saving)) = None)) /\
  play (mkSession Samples.coords_default Samples.coords_default 240 12)
    Samples.figure_saving
  = (Raise AttributeError, mkDisplay (py_range 12) (py_range 12) "0%"%string None) /\
  play (mkSession Samples.coords_default Samples.coords_default 240 12)
    Samples.figure
  = (Ok tt,
     mkDisplay (py_range 2880) (py_range 2880) "96%"%string
       (Some "Rose Drawing — 96%"%string)).
Proof.
  assert (Hn : 0 < len Samples.coords_default < 2 ^ 46)
    by (split; vm_compute; reflexivity).
  split; [split; [reflexivity | exact Hn] | ].
  split.
  - apply (play_ends_on_last_frame Samples.coords_default
             Samples.coords_default Samples.speed_default
             Samples.figure_saving); [reflexivity | exact Hn].
  - split; vm_compute; reflexivity.
Defined.

(** [update_without_points] at speed 1.0 and frame 0. *)
Lemma update_without_points_witness :
  valid Samples.speed_default = true /\ 0 <= 0 /\
  exists s,
    prepare [] [] Samples.speed_default = Ok s /\
    fst (update s 0 Samples.figure) = Raise ZeroDivisionError.
Proof.
  split; [reflexivity | ]. split; [lia | ].
  apply (update_without_points [] Samples.speed_default 0 Samples.figure);
    [reflexivity | lia].
Defined.

(** * The frame count *)

Section FrameCountClaims.

Import Binary64Facts.

(** C2, the claim as stated, fails: at speed 3.5 the quotient is
    68.57..., the code keeps 68 and rounding to nearest gives 69. *)
Lemma frames_of_not_rounded :
  frames_of (lit 35 10) = Ok 68 /\
  spec_frame_count_round (lit 35 10) = Ok 69 /\
  frames_of (lit 35 10) <> spec_frame_count_round (lit 35 10).
Proof.
  assert (H1 : frames_of (lit 35 10) = Ok 68) by (vm_compute; reflexivity).
  assert (H2 : spec_frame_count_round (lit 35 10) = Ok 69)
    by (vm_compute; reflexivity).
  split; [exact H1 | ]. split; [exact H2 | ].
  rewrite H1, H2. discriminate.
Qed.

(** C2, amended: for every float [speed] the frame count is
    [max(60, trunc(240 / max(0.1, speed)))], with truncation toward zero
    where the claim had rounding to nearest; for speed 1.0 it is 240. *)
Theorem frames_of_is_truncation (speed : float) :
  valid speed = true ->
  frames_of speed = Ok (spec_frame_count_trunc speed) /\
  frames_of (lit 1 1) = Ok 240.
Proof.
  intros Hv. split; [now apply frames_of_trunc | now vm_compute].
Qed.

(** C7: the frame count for speed 0.01 is the one for speed 0.1, and so
    is the frame count of every speed below 0.1. *)
Theorem frames_of_speed_clamp (speed : float) :
  ltb speed f0_1 = true ->
  frames_of (lit 1 100) = frames_of (lit 1 10) /\
  frames_of speed = frames_of (lit 1 10).
Proof.
  intros Hlt. split; [now vm_compute | ].
  change (lit 1 10) with f0_1.
  apply frames_of_clamped. now apply ltb_tenth_antisym.
Qed.

(** C9: for every float [speed] (zero, negative, infinite and NaN
    included) the divisor [max(0.1, speed)] is not zero, the division
    and the conversion to int raise nothing, and the frame count is at
    least 60. *)
Theorem frames_of_total_at_least_60 (speed : float) :
  valid speed = true ->
  is_zero (py_max_float f0_1 speed) = false /\
  (exists q,
     py_float_truediv (of_int base_frames) (py_max_float f0_1 speed)
     = Ok q) /\
  exists n, frames_of speed = Ok n /\ 60 <= n.
Proof.
  intros Hv. split; [apply divisor_not_zero | ]. split.
  - unfold py_float_truediv. rewrite divisor_not_zero. now eexists.
  - destruct (frames_of_total speed Hv) as (n & Hn & Hb).
    exists n. split; [exact Hn | lia].
Qed.

(** Whatever the speed, there are between 60 and 2400 frames. *)
Theorem frames_of_bounds (speed : float) :
  valid speed = true ->
  exists n, frames_of speed = Ok n /\ 60 <= n <= 2400.
Proof. apply frames_of_total. Qed.

End FrameCountClaims.

(** [frames_of_bounds] at speed +infinity. *)
Lemma frames_of_bounds_witness :
  valid (S754_infinity false) = true /\
  exists n, frames_of (S754_infinity false) = Ok n /\ 60 <= n <= 2400.
Proof.
  split; [reflexivity | ].
  apply (frames_of_bounds (S754_infinity false)); reflexivity.
Defined.

(** [frames_of_is_truncation] at speed 3.5. *)
Lemma frames_of_is_truncation_witness :
  valid Samples.speed_fast = true /\
  frames_of Samples.speed_fast
  = Ok (spec_frame_count_trunc Samples.speed_fast) /\
  frames_of (lit 1 1) = Ok 240.
Proof.
  split; [reflexivity | ].
  apply (frames_of_is_truncation Samples.speed_fast); reflexivity.
Defined.

(** [frames_of_speed_clamp] at speed 0.01. *)
Lemma frames_of_speed_clamp_witness :
  ltb Samples.speed_slow f0_1 = true /\
  frames_of (lit 1 100) = frames_of (lit 1 10) /\
  frames_of Samples.speed_slow = frames_of (lit 1 10).
Proof.
  split; [reflexivity | ].
  apply (frames_of_speed_clamp Samples.speed_slow); reflexivity.
Defined.

(** [frames_of_total_at_least_60] at speed -0.0. *)
Lemma frames_of_total_at_least_60_witness :
  valid (S754_zero true) = true /\
  is_zero (py_max_float f0_1 (S754_zero true)) = false /\
  (exists q,
     py_float_truediv (of_int base_frames)
       (py_max_float f0_1 (S754_zero true)) = Ok q) /\
  exists n, frames_of (S754_zero true) = Ok n /\ 60 <= n.
Proof.
  split; [reflexivity | ].
  apply (frames_of_total_at_least_60 (S754_zero true)); reflexivity.
Defined.

(** * The export *)

Section ExportClaims.

Local Open Scope string_scope.

Lemma append_empty_r (t : string) : t ++ "" = t.
Proof. induction t as [ | c t IH]; cbn; congruence. Qed.

(** C8: when a path is given and the encoder raises an error (an
    instance of [Exception]), the call is followed by one printed line
    that contains the text of the error and then by the display, and
    nothing leaves the function; without a path ([None], or the empty
    string) the encoder is not called at all. *)
Theorem export_failure_is_contained
    (anim_save : string -> outcome) (path : string) (e : py_exception) :
  truthy (Some path) = true ->
  anim_save path = Raised e ->
  is_Exception e = true ->
  (exists msg,
     export_and_show anim_save (Some path)
     = ([SaveCalled path "pillow" 30; Printed msg; ShowCalled], None) /\
     occurs_in (exc_str e) msg) /\
  (forall save,
     truthy save = false ->
     export_and_show anim_save save = ([ShowCalled], None) /\
     existsb is_save (fst (export_and_show anim_save save)) = false).
Proof.
  intros Hp Hs He. split.
  - exists ("Could not save GIF: " ++ exc_str e). split.
    + unfold export_and_show. rewrite Hp, Hs, He. reflexivity.
    + exists "Could not save GIF: ", "".
      now rewrite append_empty_r.
  - intros save Hf. unfold export_and_show.
    destruct save as [p | ]; [rewrite Hf | ]; split; reflexivity.
Qed.

End ExportClaims.

(** [export_failure_is_contained] with an encoder that cannot write its
    file. *)
Lemma export_failure_is_contained_witness :
  truthy (Some "/out.gif"%string) = true /\
  Samples.failing_encoder "/out.gif" = Raised Samples.permission_denied /\
  is_Exception Samples.permission_denied = true /\
  (exists msg,
     export_and_show Samples.failing_encoder (Some "/out.gif"%string)
     = ([SaveCalled "/out.gif" "pillow" 30; Printed msg; ShowCalled], None) /\
     occurs_in (exc_str Samples.permission_denied) msg) /\
  (forall save,
     truthy save = false ->
     export_and_show Samples.failing_encoder save = ([ShowCalled], None) /\
     existsb is_save (fst (export_and_show Samples.failing_encoder save))
     = false).
Proof.
  split; [reflexivity | ]. split; [reflexivity | ]. split; [reflexivity | ].
  apply (export_failure_is_contained Samples.failing_encoder "/out.gif"
           Samples.permission_denied); reflexivity.
Defined.

(** * Round to nearest, both sides *)

Module RoundingNearest.

Import Binary64Facts.

Lemma round_nearest_even_down (m : Z) (l : location) :
  round_nearest_even m l = m ->
  l = loc_Exact \/ l = loc_Inexact Lt \/
  (l = loc_Inexact Eq /\ Z.even m = true).
Proof.
  destruct l as [ | [ | | ]]; cbn; intros H; auto.
  - destruct (Z.even m) eqn:Em; [auto | lia].
  - lia.
Qed.

Lemma new_location_down (n r : Z) (l : location) :
  0 < n -> 0 <= r ->
  new_location n r = l ->
  (l = loc_Exact -> r = 0) /\
  (l = loc_Inexact Lt -> 2 * r < n) /\
  (l = loc_Inexact Eq -> 2 * r = n).
Proof.
  intros Hn Hr <-.
  unfold new_location, new_location_even, new_location_odd.
  destruct (Z.even n) eqn:En; destruct (Z.eqb_spec r 0) as [-> | Hr0];
    repeat split; intros H; try discriminate; try lia.
  - destruct (Z.compare_spec (2 * r) n); try discriminate; lia.
  - destruct (Z.compare_spec (2 * r) n); try discriminate; lia.
  - destruct (Z.compare_spec (2 * r + 1) n); try discriminate.
    + assert (Ho : Z.odd n = true) by (now rewrite <- Z.negb_even, En).
      apply Z.odd_spec in Ho as [j Hj]. lia.
    + lia.
  - destruct (Z.compare_spec (2 * r + 1) n); discriminate.
Qed.

(** The position after one step of the shift. *)
Lemma shr_1_loc (q : Z) (l : location) :
  2 <= q ->
  loc_of_shr_record (shr_1 (shr_record_of_loc q l)) =
  match Z.odd q, l with
  | false, loc_Exact => loc_Exact
  | false, _ => loc_Inexact Lt
  | true, loc_Exact => loc_Inexact Eq
  | true, _ => loc_Inexact Gt
  end.
Proof.
  intros Hq. destruct q as [ | p | p]; try lia.
  destruct p as [p | p | ]; try lia; destruct l as [ | [ | | ]]; reflexivity.
Qed.

(** [binary_round_aux_spec] with the other side: the lower neighbour is
    chosen only from the middle downward, and at the middle only when it
    is even. *)
Lemma binary_round_aux_nearest (sx : bool) (q e : Z) (l : location) :
  2 ^ 52 <= q < 2 ^ 54 -> -1074 <= e -> e + 2 <= 971 ->
  exists m e' t,
    binary_round_aux prec emax sx q e l = S754_finite sx m e' /\
    (t = 0 /\ q < 2 ^ 53 \/ t = 1 /\ 2 ^ 53 <= q) /\
    e + t <= e' <= e + t + 1 /\
    q / 2 ^ t <= Z.pos m * 2 ^ (e' - (e + t)) <= q / 2 ^ t + 1 /\
    (Z.pos m * 2 ^ (e' - (e + t)) = q / 2 ^ t + 1 ->
     if t =? 0 then rounds_up l = true else Z.odd q = true) /\
    (Z.pos m * 2 ^ (e' - (e + t)) = q / 2 ^ t ->
     if t =? 0
     then l = loc_Exact \/ l = loc_Inexact Lt \/
          (l = loc_Inexact Eq /\ Z.even q = true)
     else Z.odd q = false \/ (l = loc_Exact /\ Z.even (q / 2) = true)).
Proof.
  intros Hq He Hmax. rewrite binary_round_aux_eq.
  destruct (Z_lt_le_dec q (2 ^ 53)) as [Hlt | Hge].
  - rewrite shr_fexp_keep by lia.
    rewrite shr_m_record_of_loc, loc_of_record_of_loc.
    pose proof (round_nearest_even_range q l) as Hr.
    destruct (round_finish_spec sx (round_nearest_even q l) e)
      as (m & e' & Heq & He' & Hv); try lia.
    exists m, e', 0.
    rewrite Z.add_0_r, Z.pow_0_r, Z.div_1_r, Hv.
    split; [exact Heq | ]. split; [left; lia | ].
    split; [lia | ]. split; [lia | ].
    cbn [Z.eqb]. split.
    + apply round_nearest_even_up.
    + apply round_nearest_even_down.
  - rewrite shr_fexp_one by lia.
    destruct (shr_1_spec q l) as [Hm Hup]; [cbn in Hge; lia | ].
    rewrite Hm.
    pose proof (shr_1_loc q l ltac:(cbn in Hge; lia)) as Hloc.
    set (l' := loc_of_shr_record (shr_1 (shr_record_of_loc q l))) in *.
    pose proof (round_nearest_even_range (q / 2) l') as Hr.
    assert (Hh : 2 ^ 52 <= q / 2 < 2 ^ 53).
    { change (2 ^ 53) with (2 * 2 ^ 52) in Hge.
      change (2 ^ 54) with (2 * 2 ^ 53) in Hq.
      split; [apply Z.div_le_lower_bound | apply Z.div_lt_upper_bound]; lia. }
    destruct (round_finish_spec sx (round_nearest_even (q / 2) l') (e + 1))
      as (m & e' & Heq & He' & Hv); try lia.
    exists m, e', 1.
    rewrite Z.pow_1_r, Hv.
    split; [exact Heq | ]. split; [right; lia | ].
    split; [lia | ]. split; [lia | ].
    cbn [Z.eqb]. split.
    + intros Hup'. apply Hup.
      now apply round_nearest_even_up with (m := q / 2).
    + intros Hdown. apply round_nearest_even_down in Hdown.
      rewrite Hloc in Hdown.
      destruct (Z.odd q); [right | now left].
      destruct l as [ | c]; destruct Hdown as [H | [H | [H He2]]];
        try discriminate; auto.
Qed.

(** [div_pos_spec] with the other side. *)
Lemma div_pos_nearest (m1 m2 : positive) (e1 e2 : Z) :
  let d1 := Z.pos (digits2_pos m1) in
  let d2 := Z.pos (digits2_pos m2) in
  let s := 53 + d2 - d1 in
  let delta := d1 + e1 - (d2 + e2) in
  0 <= s -> -1021 <= delta <= 1022 ->
  exists m e t,
    div (S754_finite false m1 e1) (S754_finite false m2 e2)
    = S754_finite false m e /\
    let E := delta - 53 + t in
    let N := Z.pos m1 * 2 ^ s in
    let D := Z.pos m2 * 2 ^ t in
    (t = 0 \/ t = 1) /\
    2 ^ 52 <= N / D < 2 ^ 53 /\
    E <= e <= E + 1 /\
    N / D <= Z.pos m * 2 ^ (e - E) <= N / D + 1 /\
    (Z.pos m * 2 ^ (e - E) = N / D + 1 -> D <= 2 * (N mod D)) /\
    (Z.pos m * 2 ^ (e - E) = N / D ->
     2 * (N mod D) < D \/ (2 * (N mod D) = D /\ Z.even (N / D) = true)).
Proof.
  intros d1 d2 s delta Hs Hdelta.
  pose proof (digits_lower m1) as L1. pose proof (digits_upper m1) as U1.
  pose proof (digits_lower m2) as L2. pose proof (digits_upper m2) as U2.
  fold d1 in L1, U1. fold d2 in L2, U2.
  assert (Hd1 : 0 < d1) by (subst d1; lia).
  assert (Hd2 : 0 < d2) by (subst d2; lia).
  unfold div, SFdiv, SFdiv_core_binary. cbn [Zdigits2 xorb].
  fold d1 d2.
  assert (He' : Z.min (fexp prec emax (d1 + e1 - (d2 + e2))) (e1 - e2)
                = delta - 53).
  { fold delta. rewrite fexp_normal by lia. subst delta s. lia. }
  rewrite He'.
  replace (e1 - e2 - (delta - 53)) with s by (subst delta s; lia).
  set (N := Z.pos m1 * 2 ^ s).
  assert (HN : match s with
               | 0 => Z.pos m1
               | Z.pos _ => Z.shiftl (Z.pos m1) s
               | Z.neg _ => 0
               end = N).
  { subst N. destruct s as [ | p | p] eqn:Es.
    - rewrite Z.pow_0_r. lia.
    - now rewrite Z.shiftl_mul_pow2 by lia.
    - lia. }
  rewrite HN, div_eucl_div_mod.
  assert (HNlo : 2 ^ 52 * 2 ^ d2 <= N).
  { subst N. replace (2 ^ 52 * 2 ^ d2) with (2 ^ (d1 - 1) * 2 ^ s).
    - apply Z.mul_le_mono_nonneg_r; [apply Z.pow_nonneg; lia | assumption].
    - rewrite <- !Z.pow_add_r by lia. f_equal. subst s. lia. }
  assert (HNhi : N < 2 ^ 54 * 2 ^ (d2 - 1)).
  { subst N. replace (2 ^ 54 * 2 ^ (d2 - 1)) with (2 ^ d1 * 2 ^ s).
    - apply Z.mul_lt_mono_pos_r; [apply Z.pow_pos_nonneg; lia | assumption].
    - rewrite <- !Z.pow_add_r by lia. f_equal. subst s. lia. }
  assert (Hq : 2 ^ 52 <= N / Z.pos m2 < 2 ^ 54).
  { split.
    - apply Z.div_le_lower_bound; [lia | ].
      assert (0 < 2 ^ 52) by reflexivity. nia.
    - apply Z.div_lt_upper_bound; [lia | ].
      assert (0 < 2 ^ 54) by reflexivity. nia. }
  set (q := N / Z.pos m2) in *. set (r := N mod Z.pos m2) in *.
  assert (Hqr : N = Z.pos m2 * q + r) by (apply Z.div_mod; lia).
  assert (Hr : 0 <= r < Z.pos m2) by (apply Z.mod_pos_bound; lia).
  destruct (binary_round_aux_nearest false q (delta - 53)
              (new_location (Z.pos m2) r))
    as (m & e & t & Heq & Ht & He & Hm & Hup & Hdown); try lia.
  exists m, e, t. split; [exact Heq | ].
  cbv zeta.
  destruct (new_location_down (Z.pos m2) r _ ltac:(lia) ltac:(lia) eq_refl)
    as (Hex & HLt & HEq).
  destruct Ht as [[-> Hq53] | [-> Hq53]]; cbn [Z.eqb] in Hup, Hdown.
  - rewrite Z.pow_0_r, Z.mul_1_r in *. rewrite Z.div_1_r in Hm, Hup, Hdown.
    fold q. fold r.
    split; [now left | ]. split; [lia | ]. split; [lia | ].
    split; [lia | ]. split.
    + intros Hv. apply new_location_up. now apply Hup.
    + intros Hv. destruct (Hdown Hv) as [H | [H | [H Hev]]].
      * left. rewrite (Hex H). lia.
      * left. now apply HLt.
      * right. split; [now apply HEq | exact Hev].
  - rewrite Z.pow_1_r in *.
    assert (Hdiv : N / (Z.pos m2 * 2) = q / 2)
      by (subst q; now rewrite Z.div_div by lia).
    assert (Hmod : N mod (Z.pos m2 * 2) = r + Z.pos m2 * (q mod 2))
      by (subst q r; apply Z.rem_mul_r; lia).
    rewrite Hdiv, Hmod.
    assert (Hh : 2 ^ 52 <= q / 2 < 2 ^ 53).
    { change (2 ^ 53) with (2 * 2 ^ 52) in Hq53.
      change (2 ^ 54) with (2 * 2 ^ 53) in Hq.
      split; [apply Z.div_le_lower_bound | apply Z.div_lt_upper_bound]; lia. }
    split; [now right | ]. split; [exact Hh | ]. split; [lia | ].
    split; [lia | ]. split.
    + intros Hv. specialize (Hup Hv).
      apply Z.odd_spec in Hup as [k Hk]. rewrite Hk.
      replace (2 * k + 1) with (1 + k * 2) by lia.
      rewrite Z.mod_add by lia. change (1 mod 2) with 1. lia.
    + intros Hv. destruct (Hdown Hv) as [Hodd | [Hl Hev]].
      * left. rewrite Zmod_odd, Hodd. lia.
      * pose proof (Z.mod_pos_bound q 2 ltac:(lia)) as Hq2.
        rewrite (Hex Hl).
        destruct (Z.eq_dec (q mod 2) 0) as [H0 | H1].
        -- left. rewrite H0. lia.
        -- right. split; [ | exact Hev].
           replace (q mod 2) with 1 by lia. lia.
Qed.

(** Two quotients of the same dividend, each rounded to the nearest on
    its own grid ([P] and [P'] are the grid steps of the integers, [W] and
    [W'] the divisors on a common scale): the larger divisor gives the
    smaller integer part. *)
Lemma nearest_quotient_mono (N W W' D D' P P' M M' a a' : Z) :
  0 < N -> 0 < D -> 0 < D' ->
  P = 2 ^ a -> P' = 2 ^ a' -> 1 <= a -> 1 <= a' ->
  D * P = W -> D' * P' = W' -> W <= W' ->
  2 ^ 52 <= N / D < 2 ^ 53 -> 2 ^ 52 <= N / D' < 2 ^ 53 ->
  N / D <= M <= N / D + 1 ->
  (M = N / D ->
   2 * (N mod D) < D \/ (2 * (N mod D) = D /\ Z.even (N / D) = true)) ->
  N / D' <= M' <= N / D' + 1 ->
  (M' = N / D' + 1 -> D' <= 2 * (N mod D')) ->
  M' / P' <= M / P.
Proof.
  intros HN HD HD' HPa HPa' Ha Ha' HW HW' HWW Hq Hq' HM Hdown HM' Hup'.
  assert (HP : 0 < P) by (subst P; apply Z.pow_pos_nonneg; lia).
  assert (HP' : 0 < P') by (subst P'; apply Z.pow_pos_nonneg; lia).
  assert (HPe : Z.even P = true).
  { subst P. rewrite Z.even_pow by lia. reflexivity. }
  pose proof (Z.div_mod N D ltac:(lia)) as Hdm.
  pose proof (Z.mod_pos_bound N D HD) as Hr.
  pose proof (Z.div_mod N D' ltac:(lia)) as Hdm'.
  pose proof (Z.mod_pos_bound N D' HD') as Hr'.
  set (q := N / D) in *. set (r := N mod D) in *.
  set (q' := N / D') in *. set (r' := N mod D') in *.
  change (2 ^ 52) with 4503599627370496 in *.
  change (2 ^ 53) with 9007199254740992 in *.
  clearbody q r q' r'.
  assert (HW0 : 0 < W) by (rewrite <- HW; apply Z.mul_pos_pos; lia).
  assert (HW0' : 0 < W') by lia.
  (* the grid of the smaller divisor is not finer *)
  assert (HPP : P <= P').
  { destruct (Z_le_gt_dec a a') as [Hle | Hgt];
      [subst P P'; apply Z.pow_le_mono_r; lia | exfalso].
    assert (H2 : 2 * P' <= P).
    { subst P P'. replace a with (Z.succ (a - 1)) by lia.
      rewrite Z.pow_succ_r by lia.
      assert (2 ^ a' <= 2 ^ (a - 1)) by (apply Z.pow_le_mono_r; lia). lia. }
    assert (H3 : N < 9007199254740992 * D)
      by (clear - Hdm Hr Hq HD; nia).
    assert (H4 : 4503599627370496 * D' <= N)
      by (clear - Hdm' Hr' Hq' HD'; nia).
    assert (H5 : 4503599627370496 * D' * (2 * P') <= N * (2 * P'))
      by (apply Z.mul_le_mono_nonneg_r; lia).
    assert (H6 : N * (2 * P') <= N * P)
      by (apply Z.mul_le_mono_nonneg_l; lia).
    assert (H7 : N * P < 9007199254740992 * D * P)
      by (apply Z.mul_lt_mono_pos_r; lia).
    replace (4503599627370496 * D' * (2 * P'))
      with (9007199254740992 * (D' * P')) in H5 by ring.
    replace (9007199254740992 * D * P)
      with (9007199254740992 * (D * P)) in H7 by ring.
    rewrite HW in H7. rewrite HW' in H5. lia. }
  assert (HM0 : 0 <= M) by lia.
  set (j := M' / P').
  apply Z.div_le_lower_bound; [exact HP | ].
  pose proof (Z.mul_div_le M' P' HP') as HjM'. fold j in HjM'.
  clearbody j.
  destruct (Z_le_gt_dec j 0) as [Hj0 | Hj1].
  { assert (P * j <= 0) by (clear - HP Hj0; nia). lia. }
  destruct (Z_le_gt_dec (P * j) M) as [ | Hlow]; [assumption | exfalso].
  assert (HqjP : q + 1 <= P * j) by lia.
  assert (HNjW : N < j * W).
  { assert (D * (q + 1) <= D * (P * j))
      by (apply Z.mul_le_mono_nonneg_l; lia).
    replace (j * W) with (D * (P * j)) by (rewrite <- HW; ring). lia. }
  assert (HNjW' : N < j * W').
  { assert (j * W <= j * W') by (apply Z.mul_le_mono_nonneg_l; lia). lia. }
  assert (Hq'lt : q' < P' * j).
  { destruct (Z_lt_ge_dec q' (P' * j)) as [ | Hge]; [assumption | exfalso].
    assert (D' * (P' * j) <= D' * q')
      by (apply Z.mul_le_mono_nonneg_l; lia).
    replace (D' * (P' * j)) with (j * W') in * by (rewrite <- HW'; ring).
    lia. }
  (* the other quotient was rounded up *)
  assert (HM'up : M' = q' + 1) by lia.
  specialize (Hup' HM'up).
  assert (Hq'j : q' = P' * j - 1) by lia.
  assert (HG' : 2 * j * P' * W' <= 2 * N * P' + W').
  { assert (H1 : 2 * N >= 2 * (D' * (P' * j - 1)) + D') by lia.
    assert (H2 : (2 * (D' * (P' * j - 1)) + D') * P' <= 2 * N * P')
      by (apply Z.mul_le_mono_nonneg_r; lia).
    replace ((2 * (D' * (P' * j - 1)) + D') * P')
      with (2 * j * P' * (D' * P') - D' * P') in H2 by ring.
    rewrite HW' in H2. lia. }
  (* hence this one is at least at the middle too *)
  assert (HG : 2 * j * P * W <= 2 * N * P + W).
  { assert (H1 : 0 <= 2 * N * P * P' * (W' - W))
      by (repeat apply Z.mul_nonneg_nonneg; lia).
    assert (H2 : 0 <= W * W' * (P' - P))
      by (repeat apply Z.mul_nonneg_nonneg; lia).
    assert (H3 : 2 * j * P' * W' * (P * W) <= (2 * N * P' + W') * (P * W))
      by (apply Z.mul_le_mono_nonneg_r;
          [apply Z.mul_nonneg_nonneg; lia | exact HG']).
    assert (H4 : 2 * j * P * W * (P' * W') <= (2 * N * P + W) * (P' * W')).
    { replace ((2 * N * P + W) * (P' * W'))
        with ((2 * N * P' + W') * (P * W)
              + (2 * N * P * P' * (W' - W) + W * W' * (P' - P))) by ring.
      replace (2 * j * P * W * (P' * W'))
        with (2 * j * P' * W' * (P * W)) by ring.
      lia. }
    apply (Z.mul_le_mono_pos_r _ _ (P' * W')); [ | exact H4].
    apply Z.mul_pos_pos; lia. }
  assert (HGD : 2 * j * P * D <= 2 * N + D).
  { apply (Z.mul_le_mono_pos_r _ _ P); [exact HP | ].
    replace (2 * j * P * D * P) with (2 * j * P * (D * P)) by ring.
    replace ((2 * N + D) * P) with (2 * N * P + D * P) by ring.
    now rewrite HW. }
  (* so its floor is just below the integer, and it is rounded up *)
  assert (Hqj : q = P * j - 1).
  { destruct (Z_le_gt_dec (P * j - 1) q) as [ | Hsmall]; [lia | exfalso].
    assert (H1 : D * (q + 2) <= D * (P * j))
      by (apply Z.mul_le_mono_nonneg_l; lia).
    replace (2 * j * P * D) with (2 * (D * (P * j))) in HGD by ring.
    replace (D * (q + 2)) with (D * q + 2 * D) in H1 by ring.
    lia. }
  assert (Hhalf : D <= 2 * r).
  { replace (2 * j * P * D) with (2 * (D * (P * j))) in HGD by ring.
    replace (P * j) with (q + 1) in HGD by lia.
    replace (D * (q + 1)) with (D * q + D) in HGD by ring. lia. }
  assert (HMq : M = q) by lia.
  destruct (Hdown HMq) as [Hlt | [_ Hev]]; [lia | ].
  rewrite Hqj in Hev.
  assert (Hodd : Z.odd (P * j - 1) = true).
  { rewrite Z.odd_sub, Z.odd_mul, <- (Z.negb_even P), HPe. reflexivity. }
  rewrite <- Z.negb_odd, Hodd in Hev. discriminate.
Qed.

End RoundingNearest.

(** * More on the frame count *)

Module FrameCountMore.

Import Binary64Facts.

(** [int(240.0 / d)] for a float [d] above [0.1] is the floor of the exact
    quotient, or one more when the rounded quotient reaches the next
    integer. *)
Lemma div_240_floor (m2 : positive) (e2 : Z) :
  valid (S754_finite false m2 e2) = true ->
  ltb f0_1 (S754_finite false m2 e2) = true ->
  exists m e,
    div (of_int base_frames) (S754_finite false m2 e2)
    = S754_finite false m e /\
    exact_floor_div 240 (S754_finite false m2 e2) <= trunc_mag m e
    <= exact_floor_div 240 (S754_finite false m2 e2) + 1.
Proof.
  intros Hv Hlt.
  destruct (gt_tenth_normal _ _ _ Hv Hlt) as (_ & Hd & He2 & Hgt).
  change (of_int base_frames)
    with (S754_finite false 8444249301319680 (-45)).
  assert (Hd1 : Z.pos (digits2_pos 8444249301319680) = 53)
    by (vm_compute; reflexivity).
  destruct (div_pos_spec 8444249301319680 m2 (-45) e2)
    as (m & e & t & Heq & Ht & HE & HM & _); rewrite ?Hd1, ?Hd; try lia.
  rewrite Hd1, Hd in HE, HM. cbv zeta in HE, HM.
  exists m, e. split; [exact Heq | ].
  set (E := 53 + -45 - (53 + e2) - 53 + t) in *.
  replace (53 + 53 - 53) with 53 in HM by lia.
  set (M := Z.pos m * 2 ^ (e - E)) in *.
  assert (HEneg : - E = 98 + e2 - t) by (subst E; lia).
  rewrite (trunc_mag_rescale m e E) by lia. fold M. rewrite HEneg.
  set (P := 2 ^ (98 + e2 - t)) in *.
  set (D := Z.pos m2 * 2 ^ t) in *.
  assert (HP : 0 < P) by (apply Z.pow_pos_nonneg; lia).
  assert (Hpt : 0 < 2 ^ t) by (apply Z.pow_pos_nonneg; lia).
  assert (HD : 0 < D) by (subst D; lia).
  change (8444249301319680 * 2 ^ 53) with (240 * 2 ^ 98) in HM.
  set (N := 240 * 2 ^ 98) in *.
  assert (HDP : D * P = Z.pos m2 * 2 ^ (98 + e2)).
  { subst D P. rewrite <- Z.mul_assoc, <- Z.pow_add_r by lia.
    do 2 f_equal. lia. }
  (* the exact floor, read on the same scale *)
  assert (HL : N / D / P = exact_floor_div 240 (S754_finite false m2 e2)).
  { rewrite Z.div_div by lia. rewrite HDP. subst N. cbn [exact_floor_div].
    destruct (Z.leb_spec 0 e2) as [Hpos | Hneg].
    - rewrite Z.pow_add_r by lia.
      replace (Z.pos m2 * (2 ^ 98 * 2 ^ e2))
        with (Z.pos m2 * 2 ^ e2 * 2 ^ 98) by ring.
      apply Z.div_mul_cancel_r; [ | reflexivity || discriminate].
      assert (0 < 2 ^ e2) by (apply Z.pow_pos_nonneg; lia). lia.
    - replace (2 ^ 98) with (2 ^ (- e2) * 2 ^ (98 + e2))
        by (rewrite <- Z.pow_add_r by lia; f_equal; lia).
      rewrite Z.mul_assoc.
      apply Z.div_mul_cancel_r; [lia | ].
      apply Z.pow_nonzero; lia. }
  rewrite <- HL. split.
  - apply Z.div_le_mono; lia.
  - transitivity ((N / D + 1 * P) / P).
    + apply Z.div_le_mono; nia.
    + rewrite Z.div_add by lia. lia.
Qed.

(** The comparison [4.0 <= d] on a finite float. *)
Lemma ge_four_normal (s : bool) (m2 : positive) (e2 : Z) :
  valid (S754_finite s m2 e2) = true ->
  leb (lit 4 1) (S754_finite s m2 e2) = true ->
  s = false /\ -50 <= e2 /\ 2 ^ 52 <= Z.pos m2 /\
  ltb f0_1 (S754_finite s m2 e2) = true.
Proof.
  intros Hv Hle.
  replace (lit 4 1) with (S754_finite false 4503599627370496 (-50)) in Hle
    by (vm_compute; reflexivity).
  unfold leb, SFleb, SFcompare in Hle.
  destruct s; [discriminate | ].
  unfold valid, valid_binary, bounded, canonical_mantissa in Hv.
  apply andb_true_iff in Hv as [Hc Hb].
  apply Z.eqb_eq in Hc. apply Z.leb_le in Hb.
  unfold fexp, SpecFloat.emin, prec, emax in Hc, Hb.
  pose proof (digits_lower m2) as L2.
  assert (He2 : -50 <= e2).
  { destruct (Z.compare_spec (-50) e2); [lia | lia | discriminate]. }
  assert (Hd : Z.pos (digits2_pos m2) = 53) by lia.
  rewrite Hd in L2. change (53 - 1) with 52 in L2.
  split; [reflexivity | ]. split; [exact He2 | ]. split; [exact L2 | ].
  unfold ltb, SFltb, f0_1, SFcompare.
  destruct (Z.compare_spec (-56) e2); [lia | reflexivity | lia].
Qed.

(** [240.0 / d] for a float [d] above [0.1], with both sides of the
    rounding: [P] is the grid step of the integers and [D * P] the divisor
    on the scale [2^98]. *)
Lemma div_240_nearest (m2 : positive) (e2 : Z) :
  valid (S754_finite false m2 e2) = true ->
  ltb f0_1 (S754_finite false m2 e2) = true ->
  exists m e D P M a,
    div (of_int base_frames) (S754_finite false m2 e2)
    = S754_finite false m e /\
    trunc_mag m e = M / P /\
    0 < D /\ P = 2 ^ a /\ 1 <= a /\
    D * P = Z.pos m2 * 2 ^ (98 + e2) /\
    2 ^ 52 <= 240 * 2 ^ 98 / D < 2 ^ 53 /\
    240 * 2 ^ 98 / D <= M <= 240 * 2 ^ 98 / D + 1 /\
    (M = 240 * 2 ^ 98 / D + 1 -> D <= 2 * ((240 * 2 ^ 98) mod D)) /\
    (M = 240 * 2 ^ 98 / D ->
     2 * ((240 * 2 ^ 98) mod D) < D \/
     (2 * ((240 * 2 ^ 98) mod D) = D /\
      Z.even (240 * 2 ^ 98 / D) = true)).
Proof.
  intros Hv Hlt.
  destruct (gt_tenth_normal _ _ _ Hv Hlt) as (_ & Hd & He2 & Hgt).
  change (of_int base_frames)
    with (S754_finite false 8444249301319680 (-45)).
  assert (Hd1 : Z.pos (digits2_pos 8444249301319680) = 53)
    by (vm_compute; reflexivity).
  destruct (RoundingNearest.div_pos_nearest 8444249301319680 m2 (-45) e2)
    as (m & e & t & Heq & Hrest); rewrite ?Hd1, ?Hd; try lia.
  rewrite Hd1, Hd in Hrest. cbv zeta in Hrest.
  replace (53 + 53 - 53) with 53 in Hrest by lia.
  change (8444249301319680 * 2 ^ 53) with (240 * 2 ^ 98) in Hrest.
  destruct Hrest as (Ht & Hq & HE & HM & Hup & Hdown).
  set (E := 53 + -45 - (53 + e2) - 53 + t) in *.
  assert (HEneg : - E = 98 + e2 - t) by (subst E; lia).
  exists m, e, (Z.pos m2 * 2 ^ t), (2 ^ (98 + e2 - t)),
    (Z.pos m * 2 ^ (e - E)), (98 + e2 - t).
  assert (Hpt : 0 < 2 ^ t) by (apply Z.pow_pos_nonneg; lia).
  split; [exact Heq | ].
  split; [rewrite (trunc_mag_rescale m e E) by lia; now rewrite HEneg | ].
  split; [lia | ]. split; [reflexivity | ]. split; [lia | ].
  split.
  { rewrite <- Z.mul_assoc, <- Z.pow_add_r by lia. do 2 f_equal. lia. }
  split; [exact Hq | ]. split; [exact HM | ]. split; assumption.
Qed.

(** [<=] on positive finite floats is the order of (exponent, mantissa)
    when both are normal. *)
Lemma leb_finite_pos (m1 m2 : positive) (e1 e2 : Z) :
  leb (S754_finite false m1 e1) (S754_finite false m2 e2) = true ->
  e1 < e2 \/ (e1 = e2 /\ Z.pos m1 <= Z.pos m2).
Proof.
  unfold leb, SFleb, SFcompare.
  destruct (Z.compare_spec e1 e2) as [He | He | He]; try discriminate;
    [ | now left].
  rewrite Pos.compare_cont_spec. cbn [Pos.switch_Eq].
  rewrite Pos2Z.inj_compare.
  destruct (Z.compare_spec (Z.pos m1) (Z.pos m2)) as [Hm | Hm | Hm];
    try discriminate; intros _; right; split; lia.
Qed.

(** What is at least as large as a float above [0.1] is above [0.1]. *)
Lemma gt_tenth_upward (s1 s2 : float) :
  valid s1 = true ->
  ltb f0_1 s1 = true -> leb s1 s2 = true -> ltb f0_1 s2 = true.
Proof.
  intros Hv1 H1 H12.
  destruct s1 as [b1 | b1 | | b1 m1 e1]; try discriminate.
  - destruct b1; [discriminate | ].
    destruct s2 as [b2 | [ | ] | | b2 m2 e2]; try discriminate.
    reflexivity.
  - destruct (gt_tenth_normal _ _ _ Hv1 H1) as (-> & Hd1 & He1 & _).
    destruct s2 as [b2 | [ | ] | | [ | ] m2 e2]; try discriminate;
      [reflexivity | ].
    destruct (leb_finite_pos _ _ _ _ H12) as [He | [He Hm]].
    + unfold ltb, SFltb, f0_1, SFcompare.
      destruct (Z.compare_spec (-56) e2); [lia | reflexivity | lia].
    + subst e2. unfold ltb, SFltb, f0_1, SFcompare in H1 |- *.
      destruct (Z.compare_spec (-56) e1); try discriminate;
        [ | reflexivity].
      rewrite Pos.compare_cont_spec in H1 |- *. cbn [Pos.switch_Eq] in *.
      rewrite Pos2Z.inj_compare in H1 |- *.
      destruct (Z.compare_spec (Z.pos 7205759403792794) (Z.pos m1));
        try discriminate.
      destruct (Z.compare_spec (Z.pos 7205759403792794) (Z.pos m2));
        [lia | reflexivity | lia].
Qed.

(** The integer part of [240.0 / d] does not grow with [d]. *)
Lemma trunc_240_mono (m1 m2 : positive) (e1 e2 : Z) :
  valid (S754_finite false m1 e1) = true ->
  valid (S754_finite false m2 e2) = true ->
  ltb f0_1 (S754_finite false m1 e1) = true ->
  leb (S754_finite false m1 e1) (S754_finite false m2 e2) = true ->
  exists n1 n2,
    frames_of (S754_finite false m1 e1) = Ok (Z.max 60 n1) /\
    frames_of (S754_finite false m2 e2) = Ok (Z.max 60 n2) /\
    n2 <= n1.
Proof.
  intros Hv1 Hv2 H1 H12.
  pose proof (gt_tenth_upward _ _ Hv1 H1 H12) as H2.
  destruct (gt_tenth_normal _ _ _ Hv1 H1) as (_ & Hd1 & He1 & _).
  destruct (gt_tenth_normal _ _ _ Hv2 H2) as (_ & Hd2 & He2 & _).
  destruct (div_240_nearest m1 e1 Hv1 H1)
    as (ma & ea & D & P & M & a & Heqa & Hta & HD & HP & Ha & HW & Hq & HM
        & _ & Hdown).
  destruct (div_240_nearest m2 e2 Hv2 H2)
    as (mb & eb & D' & P' & M' & a' & Heqb & Htb & HD' & HP' & Ha' & HW'
        & Hq' & HM' & Hup' & _).
  exists (trunc_mag ma ea), (trunc_mag mb eb).
  split.
  { unfold frames_of, py_max_float. rewrite H1.
    unfold py_float_truediv. cbn [is_zero bind]. now rewrite Heqa. }
  split.
  { unfold frames_of, py_max_float. rewrite H2.
    unfold py_float_truediv. cbn [is_zero bind]. now rewrite Heqb. }
  rewrite Hta, Htb.
  apply (RoundingNearest.nearest_quotient_mono (240 * 2 ^ 98)
           (Z.pos m1 * 2 ^ (98 + e1)) (Z.pos m2 * 2 ^ (98 + e2))
           D D' P P' M M' a a'); try assumption; try reflexivity.
  (* the order of the floats is the order of their values *)
  pose proof (digits_lower m2) as L2. pose proof (digits_upper m1) as U1.
  rewrite Hd2 in L2. rewrite Hd1 in U1.
  change (2 ^ (53 - 1)) with 4503599627370496 in L2.
  change (2 ^ 53) with 9007199254740992 in U1.
  destruct (leb_finite_pos _ _ _ _ H12) as [He | [He Hm]].
  - assert (Hp : 2 * 2 ^ (98 + e1) <= 2 ^ (98 + e2)).
    { rewrite <- Z.pow_succ_r by lia. apply Z.pow_le_mono_r; lia. }
    assert (0 < 2 ^ (98 + e1)) by (apply Z.pow_pos_nonneg; lia).
    nia.
  - subst e2. apply Z.mul_le_mono_nonneg_r; [apply Z.pow_nonneg | ]; lia.
Qed.

End FrameCountMore.

Section FrameCountExtras.

Import Binary64Facts FrameCountMore.

(** Above speed 0.1 the frame count follows the exact quotient
    [240 / speed] to within one frame: with [L] its floor, the count is
    [max(60, L)] or [max(60, L + 1)]. *)
Theorem frames_of_accuracy (speed : float) :
  valid speed = true -> ltb f0_1 speed = true ->
  exists n,
    frames_of speed = Ok (Z.max 60 n) /\
    exact_floor_div 240 speed <= n <= exact_floor_div 240 speed + 1.
Proof.
  intros Hv Hlt. unfold frames_of, py_max_float. rewrite Hlt.
  destruct speed as [s | s | | s m2 e2]; try discriminate.
  - destruct s; [discriminate | ]. exists 0. split; [now vm_compute | ].
    cbn [exact_floor_div]. lia.
  - destruct (gt_tenth_normal _ _ _ Hv Hlt) as (-> & _).
    destruct (div_240_floor m2 e2 Hv Hlt) as (m & e & Heq & Htr).
    unfold py_float_truediv. cbn [is_zero bind]. rewrite Heq.
    cbn [py_int bind]. exists (trunc_mag m e). split; [reflexivity | exact Htr].
Qed.

(** From speed 4.0 upward (infinity included) there are exactly 60
    frames. *)
Theorem frames_of_fast (speed : float) :
  valid speed = true -> leb (lit 4 1) speed = true ->
  frames_of speed = Ok 60.
Proof.
  intros Hv Hle.
  destruct speed as [s | s | | s m2 e2].
  - replace (lit 4 1) with (S754_finite false 4503599627370496 (-50)) in Hle
      by (vm_compute; reflexivity).
    discriminate.
  - replace (lit 4 1) with (S754_finite false 4503599627370496 (-50)) in Hle
      by (vm_compute; reflexivity).
    destruct s; [discriminate | now vm_compute].
  - replace (lit 4 1) with (S754_finite false 4503599627370496 (-50)) in Hle
      by (vm_compute; reflexivity).
    discriminate.
  - destruct (ge_four_normal _ _ _ Hv Hle) as (-> & He2 & Hm2 & Hlt).
    change (2 ^ 52) with 4503599627370496 in Hm2.
    assert (Hcases : (e2 = -50 /\ m2 = 4503599627370496%positive) \/
                     exact_floor_div 240 (S754_finite false m2 e2) <= 59).
    { destruct (Z.eq_dec e2 (-50)) as [-> | He50];
        [destruct (Pos.eq_dec m2 4503599627370496) as [-> | Hm4] | ].
      - left. now split.
      - right. cbn [exact_floor_div Z.leb Z.compare Z.opp].
        change (2 ^ 50) with 1125899906842624.
        assert (Z.pos m2 <> 4503599627370496) by congruence.
        assert (240 * 1125899906842624 / Z.pos m2 < 60); [ | lia].
        apply Z.div_lt_upper_bound; lia.
      - right. cbn [exact_floor_div].
        destruct (Z.leb_spec 0 e2) as [Hpos | Hneg].
        + assert (1 <= 2 ^ e2) by (apply (Z.pow_le_mono_r 2 0 e2); lia).
          assert (240 / (Z.pos m2 * 2 ^ e2) < 1); [ | lia].
          apply Z.div_lt_upper_bound; nia.
        + assert (Hp : 2 ^ (- e2) <= 2 ^ 49)
            by (apply Z.pow_le_mono_r; lia).
          change (2 ^ 49) with 562949953421312 in Hp.
          assert (240 * 2 ^ (- e2) / Z.pos m2 < 60); [ | lia].
          apply Z.div_lt_upper_bound; nia. }
    destruct Hcases as [[-> ->] | HL]; [now vm_compute | ].
    unfold frames_of, py_max_float. rewrite Hlt.
    destruct (div_240_floor m2 e2 Hv Hlt) as (m & e & Heq & Htr).
    unfold py_float_truediv. cbn [is_zero bind]. rewrite Heq.
    cbn [py_int bind]. f_equal. lia.
Qed.

(** A larger speed never gives more frames. *)
Theorem frames_of_monotone (speed1 speed2 : float) :
  valid speed1 = true -> valid speed2 = true ->
  leb speed1 speed2 = true ->
  exists n1 n2,
    frames_of speed1 = Ok n1 /\ frames_of speed2 = Ok n2 /\ n2 <= n1.
Proof.
  intros Hv1 Hv2 H12.
  destruct (frames_of_total speed1 Hv1) as (n1 & Hn1 & Hb1).
  destruct (frames_of_total speed2 Hv2) as (n2 & Hn2 & Hb2).
  exists n1, n2. split; [exact Hn1 | ]. split; [exact Hn2 | ].
  destruct (ltb f0_1 speed1) eqn:H1.
  - pose proof (gt_tenth_upward _ _ Hv1 H1 H12) as H2.
    destruct speed2 as [b2 | b2 | | b2 m2 e2]; try discriminate.
    + (* speed2 is +infinity *)
      destruct b2; [discriminate | ].
      replace (frames_of (S754_infinity false)) with (Ok (A := Z) 60) in Hn2
        by (vm_compute; reflexivity).
      injection Hn2 as <-. lia.
    + destruct (gt_tenth_normal _ _ _ Hv2 H2) as (-> & _).
      destruct speed1 as [b1 | b1 | | b1 m1 e1]; try discriminate.
      * destruct b1; discriminate.
      * destruct (gt_tenth_normal _ _ _ Hv1 H1) as (-> & _).
        destruct (trunc_240_mono m1 m2 e1 e2 Hv1 Hv2 H1 H12)
          as (k1 & k2 & Hk1 & Hk2 & Hk).
        rewrite Hk1 in Hn1. rewrite Hk2 in Hn2.
        injection Hn1 as <-. injection Hn2 as <-. lia.
  - rewrite (frames_of_clamped speed1 H1) in Hn1.
    replace (frames_of f0_1) with (Ok (A := Z) 2400) in Hn1
      by (vm_compute; reflexivity).
    injection Hn1 as <-. lia.
Qed.

End FrameCountExtras.

(** [frames_of_accuracy] at speed 3.5. *)
Lemma frames_of_accuracy_witness :
  valid Samples.speed_fast = true /\ ltb f0_1 Samples.speed_fast = true /\
  exists n,
    frames_of Samples.speed_fast = Ok (Z.max 60 n) /\
    exact_floor_div 240 Samples.speed_fast <= n
    <= exact_floor_div 240 Samples.speed_fast + 1.
Proof.
  split; [reflexivity | ]. split; [reflexivity | ].
  apply (frames_of_accuracy Samples.speed_fast); reflexivity.
Defined.

(** [frames_of_monotone] at speeds 1.0 and 3.5. *)
Lemma frames_of_monotone_witness :
  valid Samples.speed_default = true /\ valid Samples.speed_fast = true /\
  leb Samples.speed_default Samples.speed_fast = true /\
  exists n1 n2,
    frames_of Samples.speed_default = Ok n1 /\
    frames_of Samples.speed_fast = Ok n2 /\ n2 <= n1.
Proof.
  split; [reflexivity | ]. split; [reflexivity | ]. split; [reflexivity | ].
  apply (frames_of_monotone Samples.speed_default Samples.speed_fast);
    reflexivity.
Defined.

(** [frames_of_fast] at speed 35.0. *)
Lemma frames_of_fast_witness :
  valid (lit 35 1) = true /\ leb (lit 4 1) (lit 35 1) = true /\
  frames_of (lit 35 1) = Ok 60.
Proof.
  split; [reflexivity | ]. split; [reflexivity | ].
  apply (frames_of_fast (lit 35 1)); reflexivity.
Defined.

(** * More on the scheduler *)

Section SchedulerMore.

Context {A : Type}.
Implicit Types (s : session A) (d : display A) (x y : list A).

(** The percentage shown never leaves [[0, 100]], never decreases from a
    frame to a later one, and is 100 exactly when every point is shown. *)
Theorem percent_progress x y (speed : float) :
  valid speed = true -> 0 < len x < 2 ^ 46 ->
  exists s,
    prepare x y speed = Ok s /\
    forall f1 f2,
      0 <= f1 <= f2 ->
      exists p1 p2,
        percent s (revealed_count s f1) = Ok p1 /\
        percent s (revealed_count s f2) = Ok p2 /\
        0 <= p1 <= p2 /\ p2 <= 100 /\
        (p2 = 100 <-> revealed_count s f2 = len x).
Proof.
  intros Hv Hn.
  destruct (prepare_ok x y speed Hv) as (fr & Hfr & Hb & Hp).
  set (s := mkSession x y fr (idx_per_frame_of (len x) fr)) in *.
  pose proof (idx_per_frame_of_pos (len x) fr) as Hi.
  exists s. split; [exact Hp | ].
  intros f1 f2 Hf.
  pose proof (revealed_count_range s f1 ltac:(lia) Hi) as H1.
  pose proof (revealed_count_range s f2 ltac:(lia) Hi) as H2.
  assert (H12 : revealed_count s f1 <= revealed_count s f2).
  { unfold revealed_count. apply Z.min_le_compat_l.
    change (idx_per_frame s) with (idx_per_frame_of (len x) fr). nia. }
  change (xs s) with x in *.
  set (i1 := revealed_count s f1) in *. set (i2 := revealed_count s f2) in *.
  exists (100 * i1 / len x), (100 * i2 / len x).
  split; [apply (percent_floor s i1); assumption | ].
  split; [apply (percent_floor s i2); assumption | ].
  assert (Hle : 100 * i2 / len x <= 100).
  { apply Z.div_le_upper_bound; lia. }
  split; [split; [apply Z.div_pos; lia | apply Z.div_le_mono; lia] | ].
  split; [exact Hle | ].
  split; intros H.
  - destruct (Z.eq_dec i2 (len x)) as [ | Hne]; [assumption | ].
    assert (100 * i2 / len x < 100)
      by (apply Z.div_lt_upper_bound; lia).
    lia.
  - rewrite H. apply Z.div_mul. lia.
Qed.

(** For arrays of 1 to 2^46 - 1 points, what [update] writes on the
    line and on the label depends on the frame alone, not on what the
    figure showed before nor on whether it has its window.  With the
    window the title becomes "Rose Drawing — " followed by the label;
    without it the figure stays without one.  Two figures that agree on
    having the window get the same result and the same state, and
    repeating a frame changes nothing. *)
Theorem update_forgets_history x y (speed : float) (f : Z) d1 d2 :
  valid speed = true -> 0 <= f -> 0 < len x < 2 ^ 46 ->
  exists s,
    prepare x y speed = Ok s /\
    line_x (snd (update s f d1)) = line_x (snd (update s f d2)) /\
    line_y (snd (update s f d1)) = line_y (snd (update s f d2)) /\
    pct_text (snd (update s f d1)) = pct_text (snd (update s f d2)) /\
    (manager d1 <> None ->
     manager (snd (update s f d1))
     = Some ("Rose Drawing — " ++ pct_text (snd (update s f d1)))%string) /\
    (manager d1 = None -> manager (snd (update s f d1)) = None) /\
    ((manager d1 = None <-> manager d2 = None) ->
     update s f d1 = update s f d2) /\
    update s f (snd (update s f d1)) = update s f d1.
Proof.
  intros Hv Hf Hn.
  destruct (prepare_ok x y speed Hv) as (fr & Hfr & Hb & Hp).
  set (s := mkSession x y fr (idx_per_frame_of (len x) fr)) in *.
  pose proof (idx_per_frame_of_pos (len x) fr) as Hi.
  exists s. split; [exact Hp | ].
  destruct (update_line s f d1 Hf Hi) as [Hx1 Hy1].
  destruct (update_line s f d2 Hf Hi) as [Hx2 Hy2].
  split; [now rewrite Hx1, Hx2 | ].
  split; [now rewrite Hy1, Hy2 | ].
  split; [now rewrite !(update_label s f) by assumption | ].
  split.
  { intros Hm. rewrite (update_spec s f d1) by assumption. reflexivity. }
  split.
  { intros Hm. rewrite (update_no_manager s f d1) by assumption.
    reflexivity. }
  split.
  { intros Hiff.
    destruct (manager d1) as [t1 | ] eqn:H1;
      destruct (manager d2) as [t2 | ] eqn:H2.
    - now rewrite !(update_spec s f) by (assumption || congruence).
    - destruct Hiff as [_ Hiff]. specialize (Hiff eq_refl). discriminate.
    - destruct Hiff as [Hiff _]. specialize (Hiff eq_refl). discriminate.
    - now rewrite !(update_no_manager s f) by assumption. }
  destruct (manager d1) as [t1 | ] eqn:H1.
  - rewrite (update_spec s f d1) by (assumption || congruence).
    cbn [snd]. rewrite update_spec;
      first [reflexivity | assumption | cbn [manager]; discriminate].
  - rewrite (update_no_manager s f d1) by assumption.
    cbn [snd]. rewrite update_no_manager;
      first [reflexivity | assumption].
Qed.

(** At the last frame the points still hidden are the remainder of
    [len(x) / frames] (none when there are no more points than frames), so
    more than half of the points are shown. *)
Theorem last_frame_shortfall x y (speed : float) :
  valid speed = true ->
  exists s,
    prepare x y speed = Ok s /\
    len x - revealed_count s (frames s - 1)
    = (if len x <=? frames s then 0 else len x mod frames s) /\
    (1 <= len x -> len x < 2 * revealed_count s (frames s - 1)).
Proof.
  intros Hv.
  destruct (prepare_ok x y speed Hv) as (fr & Hfr & Hb & Hp).
  exists (mkSession x y fr (idx_per_frame_of (len x) fr)).
  split; [exact Hp | ].
  unfold revealed_count, idx_per_frame_of. cbn [xs frames idx_per_frame].
  replace (fr - 1 + 1) with fr by lia.
  assert (Hn : 0 <= len x) by (unfold len; lia).
  pose proof (Z.div_mod (len x) fr ltac:(lia)) as Hdm.
  pose proof (Z.mod_pos_bound (len x) fr ltac:(lia)) as Hmod.
  assert (Hq : 0 <= len x / fr) by (apply Z.div_pos; lia).
  destruct (Z.leb_spec (len x) fr) as [Hle | Hgt].
  - assert (Hq1 : len x / fr <= 1).
    { destruct (Z_le_gt_dec (len x / fr) 1); [assumption | nia]. }
    rewrite Z.max_l by lia. lia.
  - assert (Hq1 : 1 <= len x / fr).
    { destruct (Z_le_gt_dec 1 (len x / fr)); [assumption | nia]. }
    rewrite Z.max_r by lia. split; [nia | intros _; nia].
Qed.

End SchedulerMore.

(** [percent_progress] on 3000 points at speed 1.0. *)
Lemma percent_progress_witness :
  valid Samples.speed_default = true /\
  0 < len Samples.coords_default < 2 ^ 46 /\
  exists s,
    prepare Samples.coords_default Samples.coords_default
      Samples.speed_default = Ok s /\
    forall f1 f2,
      0 <= f1 <= f2 ->
      exists p1 p2,
        percent s (revealed_count s f1) = Ok p1 /\
        percent s (revealed_count s f2) = Ok p2 /\
        0 <= p1 <= p2 /\ p2 <= 100 /\
        (p2 = 100 <-> revealed_count s f2 = len Samples.coords_default).
Proof.
  assert (Hn : 0 < len Samples.coords_default < 2 ^ 46)
    by (split; vm_compute; reflexivity).
  split; [reflexivity | ]. split; [exact Hn | ].
  apply (percent_progress Samples.coords_default Samples.coords_default
           Samples.speed_default); [reflexivity | exact Hn].
Defined.

(** [update_forgets_history] on five points, at speed 3.5 and frame 1, on
    the figure as created and on one that shows something else and has no
    window. *)
Lemma update_forgets_history_witness :
  (valid Samples.speed_fast = true /\ 0 <= 1 /\
   0 < len Samples.coords_small < 2 ^ 46) /\
  (exists s,
    prepare Samples.coords_small Samples.coords_small Samples.speed_fast
    = Ok s /\
    line_x (snd (update s 1 Samples.figure))
    = line_x (snd (update s 1 (mkDisplay [7] [8] "old"%string None))) /\
    line_y (snd (update s 1 Samples.figure))
    = line_y (snd (update s 1 (mkDisplay [7] [8] "old"%string None))) /\
    pct_text (snd (update s 1 Samples.figure))
    = pct_text (snd (update s 1 (mkDisplay [7] [8] "old"%string None))) /\
    (manager Samples.figure <> None ->
     manager (snd (update s 1 Samples.figure))
     = Some ("Rose Drawing — "
             ++ pct_text (snd (update s 1 Samples.figure)))%string) /\
    (manager Samples.figure = None ->
     manager (snd (update s 1 Samples.figure)) = None) /\
    ((manager Samples.figure = None
      <-> manager (mkDisplay [7] [8] "old"%string None) = None) ->
     update s 1 Samples.figure
     = update s 1 (mkDisplay [7] [8] "old"%string None)) /\
    update s 1 (snd (update s 1 Samples.figure))
    = update s 1 Samples.figure) /\
  update (mkSession Samples.coords_small Samples.coords_small 68 1) 1
    Samples.figure
  = (Ok tt,
     mkDisplay [10; 20] [10; 20] "40%"%string
       (Some "Rose Drawing — 40%"%string)) /\
  update (mkSession Samples.coords_small Samples.coords_small 68 1) 1
    (mkDisplay [7] [8] "old"%string None)
  = (Raise AttributeError, mkDisplay [10; 20] [10; 20] "40%"%string None).
Proof.
  assert (Hn : 0 < len Samples.coords_small < 2 ^ 46)
    by (split; reflexivity).
  split; [split; [reflexivity | split; [lia | exact Hn]] | ].
  split.
  - apply (update_forgets_history Samples.coords_small Samples.coords_small
             Samples.speed_fast 1 Samples.figure
             (mkDisplay [7] [8] "old"%string None));
      [reflexivity | lia | exact Hn].
  - split; vm_compute; reflexivity.
Defined.

(** [last_frame_shortfall] on 3000 points at speed 3.5. *)
Lemma last_frame_shortfall_witness :
  valid Samples.speed_fast = true /\
  exists s,
    prepare Samples.coords_default Samples.coords_default Samples.speed_fast
    = Ok s /\
    len Samples.coords_default - revealed_count s (frames s - 1)
    = (if len Samples.coords_default <=? frames s then 0
       else len Samples.coords_default mod frames s) /\
    (1 <= len Samples.coords_default ->
     len Samples.coords_default < 2 * revealed_count s (frames s - 1)).
Proof.
  split; [reflexivity | ].
  apply (last_frame_shortfall Samples.coords_default Samples.coords_default
           Samples.speed_fast); reflexivity.
Defined.

(** * More on the export *)

(** Whatever the encoder does: it is called exactly when a non-empty path
    is given, and then once; a line is printed exactly when it was called
    and nothing escapes; the display is shown, as the last event, exactly
    when nothing escapes; and what escapes is never an [Exception] but
    what the encoder raised. *)
Theorem export_outcomes (anim_save : string -> outcome)
    (save : option string) :
  let evs := fst (export_and_show anim_save save) in
  let esc := snd (export_and_show anim_save save) in
  existsb is_save evs = truthy save /\
  (List.length (filter is_save evs) <= 1)%nat /\
  (esc = None <-> last evs (Printed "") = ShowCalled) /\
  (esc = None <-> In ShowCalled evs) /\
  ((exists line, In (Printed line) evs) <->
   truthy save = true /\ esc = None) /\
  (forall e, esc = Some e ->
     is_Exception e = false /\
     exists path, save = Some path /\ anim_save path = Raised e).
Proof.
  unfold export_and_show.
  destruct save as [path | ];
    [destruct (truthy (Some path)) eqn:Ht;
     [destruct (anim_save path) as [ | e] eqn:Hs;
      [ | destruct (is_Exception e) eqn:He] | ] | ];
    cbn; repeat split; intros;
    repeat match goal with
      | H : _ \/ _ |- _ => destruct H
      | H : exists _, _ |- _ => destruct H
      | H : _ /\ _ |- _ => destruct H
      | H : False |- _ => destruct H
      | H : Some _ = Some _ |- _ => injection H as H; subst
      end;
    try discriminate; try lia; try reflexivity; try assumption;
    eauto 6.
Qed.
